(** * Certificate rotation planner (pkg/capr/planner/certificaterotation.go)

    A shallow embedding of the rotation trigger, the service relevance
    filter, the plan composer and the rotation orchestrator, together
    with the properties the specification states about them.

    Conventions.
    - Go [int64] generations are [Z]; they are only compared and printed.
    - A Go slice of strings is a [list string]; [len(s) == 0] covers both
      the nil and the empty slice.
    - A nil-able pointer is an [option].
    - [map[string]struct{}] is a [gset string]; [map[string]interface{}]
      is a [gmap string _].
    - Functions of the package that live in other files (role predicates,
      base plan generation, plan assignment, pausing, runtime lookups) are
      fields of the class [Externals]; the planner code is written against
      that interface.
    - Calls that reach the stores are state passing over an abstract
      [World]; every such call is also recorded, with its outcome, in a
      ghost list of events so that statements can speak about what was
      invoked and in which order.
    - [logrus] calls only write to the process log and are left out. *)

From Stdlib Require Import ZArith String Ascii List Bool Lia DecimalString.
From Stdlib Require DecimalPos DecimalZ.
From stdpp Require Import base option gmap strings list.

Local Open Scope string_scope.
Local Open Scope Z_scope.
Local Open Scope list_scope.

(** ** Go library functions used by the planner *)

Module strings.

(** [strings.HasPrefix s prefix]. *)
Fixpoint HasPrefix (s prefix : string) : bool :=
  match prefix, s with
  | EmptyString, _ => true
  | String _ _, EmptyString => false
  | String p prefix', String c s' => Ascii.eqb p c && HasPrefix s' prefix'
  end.

(** Left-to-right scan of [s]; [skip] counts the bytes of the current
    match that are still to be dropped. *)
Fixpoint replaceFrom (old new : string) (skip : nat) (s : string) : string :=
  match s with
  | EmptyString => EmptyString
  | String c s' =>
      match skip with
      | S k => replaceFrom old new k s'
      | O =>
          if HasPrefix s old
          then new +:+ replaceFrom old new (Nat.pred (String.length old)) s'
          else String c (replaceFrom old new O s')
      end
  end.

(** With an empty [old], Go inserts [new] before every character and
    at the end (characters are bytes here). *)
Fixpoint intersperse (new s : string) : string :=
  match s with
  | EmptyString => new
  | String c s' => new +:+ String c (intersperse new s')
  end.

(** [strings.ReplaceAll s old new]: every non-overlapping occurrence of
    [old] in [s] replaced by [new]. *)
Definition ReplaceAll (s old new : string) : string :=
  match old with
  | EmptyString => intersperse new s
  | String _ _ => replaceFrom old new O s
  end.

End strings.

Module strconv.

(** [strconv.FormatInt i 10]. *)
Definition FormatInt10 (i : Z) : string :=
  NilZero.string_of_int (Z.to_int i).

End strconv.

(** [fmt.Sprintf("%s/%s", a, b)]. *)
Definition sprintf_slash (a b : string) : string := a +:+ "/" +:+ b.

(** [fmt.Sprintf("[%s] certificate rotation", name)]. *)
Definition sprintf_rotation (name : string) : string :=
  "[" +:+ name +:+ "] certificate rotation".

(** ** Errors *)

(** A Go [error] value: either the package's [errWaiting] string type or
    an error produced elsewhere. *)
Inductive error : Type :=
| errWaiting (msg : string)
| errExternal (msg : string).

Definition isErrWaiting (e : error) : bool :=
  match e with errWaiting _ => true | errExternal _ => false end.

(** ** API types (rke.cattle.io/v1)

    The records list the fields the planner code reads or writes. *)

Module rkev1.

Record RotateCertificates : Type := {
  Generation : Z;
  Services : list string
}.

Record RKEControlPlaneSpec : Type := {
  Spec_RotateCertificates : option RotateCertificates;
  KubernetesVersion : string
}.

Record RKEControlPlaneStatus : Type := {
  Initialized : bool;
  CertificateRotationGeneration : Z
}.

Record RKEControlPlane : Type := {
  Namespace : string;
  Name : string;
  Spec : RKEControlPlaneSpec;
  Status : RKEControlPlaneStatus
}.

(** [status.CertificateRotationGeneration = g]. *)
Definition setCertificateRotationGeneration
    (status : RKEControlPlaneStatus) (g : Z) : RKEControlPlaneStatus :=
  {| Initialized := Initialized status;
     CertificateRotationGeneration := g |}.

End rkev1.

(** ** Plan types (rke.cattle.io/v1/plan)

    Again only the fields the planner code touches; whatever else a
    base plan carries is passed through untouched by the code. *)

Module plan.

Record OneTimeInstruction : Type := {
  Name : string;
  Command : string;
  Args : list string
}.

Record File : Type := {
  Content : string;
  Path : string
}.

Record NodePlan : Type := {
  Files : list File;
  Instructions : list OneTimeInstruction
}.

(** [plan.NodePlan{}]. *)
Definition emptyNodePlan : NodePlan := {| Files := []; Instructions := [] |}.

(** [np.Instructions = append(np.Instructions, instrs...)]. *)
Definition appendInstructions (np : NodePlan) (instrs : list OneTimeInstruction) : NodePlan :=
  {| Files := Files np; Instructions := Instructions np ++ instrs |}.

(** [np.Files = append(np.Files, f)]. *)
Definition appendFile (np : NodePlan) (f : File) : NodePlan :=
  {| Files := Files np ++ [f]; Instructions := Instructions np |}.

End plan.

Import rkev1 plan.

(** ** The rest of the package, as an interface *)

(** What [certificaterotation.go] uses from the other files of the
    package and from [pkg/capr].  The role predicates and runtime lookups
    are pure; the four calls that reach the stores take the current
    [World] and give back the next one. *)
Class Externals : Type := {
  (** State of the stores and of the CAPI cluster object. *)
  World : Type;
  (** [*planEntry]: a machine with its metadata and current plan. *)
  planEntry : Type;
  (** [*plan.Plan]: the cluster-wide collection of entries. *)
  Plan : Type;
  (** [plan.Secret]. *)
  Secret : Type;
  (** A value stored in the rendered config map ([interface{}]). *)
  ArgValue : Type;

  (** [entry.Machine.Name]. *)
  machineName : planEntry -> string;

  isEtcd : planEntry -> bool;
  isControlPlane : planEntry -> bool;
  isWorker : planEntry -> bool;
  isOnlyWorker : planEntry -> bool;
  anyRole : planEntry -> bool;
  collect : Plan -> (planEntry -> bool) -> list planEntry;

  (** [getArgValue(arg, searchArg, delim)]; a missing map key gives the
      nil interface, here [None]. *)
  getArgValue : option ArgValue -> string -> string -> string;
  KubeControllerManagerArg : string;
  KubeSchedulerArg : string;
  CertDirArgument : string;
  TLSCertFileArgument : string;
  DefaultKubeControllerManagerCert : string;

  (** [capr.GetRuntime], [capr.GetRuntimeAgentUnit],
      [capr.GetRuntimeServerUnit], [capr.RuntimeRKE2]. *)
  GetRuntime : string -> string;
  GetRuntimeAgentUnit : string -> string;
  GetRuntimeServerUnit : string -> string;
  RuntimeRKE2 : string;

  generateManifestRemovalInstruction : string -> planEntry -> bool * OneTimeInstruction;

  (** [base64.StdEncoding.EncodeToString([]byte(s))]. *)
  base64EncodeToString : string -> string;

  (** [p.findInitNode(controlPlane, clusterPlan)]:
      found, joinServer, initNode, err. *)
  findInitNode :
    World -> RKEControlPlane -> Plan ->
    (bool * string * option planEntry * option error) * World;
  (** [p.generatePlanWithConfigFiles(controlPlane, tokensSecret, entry,
      joinServer, renderS3)]: nodePlan, config, joinedServer, err. *)
  generatePlanWithConfigFiles :
    World -> RKEControlPlane -> Secret -> planEntry -> string -> bool ->
    (NodePlan * gmap string ArgValue * string * option error) * World;
  (** [assignAndCheckPlan(p.store, msg, entry, plan, joinedServer,
      minWait, maxWait)]. *)
  assignAndCheckPlan :
    World -> string -> planEntry -> NodePlan -> string -> Z -> Z ->
    option error * World;
  (** [p.pauseCAPICluster(controlPlane, paused)]. *)
  pauseCAPICluster :
    World -> RKEControlPlane -> bool -> option error * World
}.

(** ** Rotation trigger and service relevance filter *)

(** [shouldRotate]: the cluster is ready and the generation is stale. *)
Definition shouldRotate (cp : RKEControlPlane) : bool :=
  match Spec_RotateCertificates (Spec cp) with
  | None => false
  | Some rotation =>
      if negb (Bool.eqb (Initialized (Status cp)) true) then false
      else negb (CertificateRotationGeneration (Status cp) =? Generation rotation)
  end.

(** [rotationContainsService]: an empty service list stands for every
    service. *)
Definition rotationContainsService
    (rotation : option RotateCertificates) (service : string) : bool :=
  match rotation with
  | None => false
  | Some rotation =>
      if (length (Services rotation) =? 0)%nat then true
      else existsb (fun desiredService => String.eqb desiredService service)
                   (Services rotation)
  end.

(** [m[k] = struct{}{}]. *)
Definition setKey (k : string) (m : gset string) : gset string := {[ k ]} ∪ m.

Section Planner.

Context `{X : Externals}.

(** The map [relevantServices] that [shouldRotateEntry] fills from the
    roles of the entry. *)
Definition relevantServices (entry : planEntry) : gset string :=
  let m : gset string := ∅ in
  let m :=
    if isWorker entry then
      setKey "auth-proxy" (setKey "kube-proxy" (setKey "kubelet"
        (setKey "api-server" (setKey "k3s-server" (setKey "rke2-server" m)))))
    else m in
  let m :=
    if isControlPlane entry then
      setKey "cloud-controller" (setKey "admin" (setKey "k3s-controller"
        (setKey "rke2-controller" (setKey "scheduler" (setKey "controller-manager"
        (setKey "auth-proxy" (setKey "kube-proxy" (setKey "kubelet"
        (setKey "api-server" (setKey "k3s-server" (setKey "rke2-server" m)))))))))))
    else m in
  let m :=
    if isEtcd entry then
      setKey "rke2-server" (setKey "k3s-server" (setKey "kubelet" (setKey "etcd" m)))
    else m in
  m.

(** [shouldRotateEntry]: the rotated services are applicable to the
    roles of the entry. *)
Definition shouldRotateEntry (rotation : RotateCertificates) (entry : planEntry) : bool :=
  if (length (Services rotation) =? 0)%nat then true
  else existsb (fun service => bool_decide (service ∈ relevantServices entry))
               (Services rotation).

End Planner.

(** ** The embedded rotation script *)

Definition dq : string := String "034"%char EmptyString.
Definition tab : string := String "009"%char EmptyString.
Definition nl : string := String "010"%char EmptyString.

(** Every line followed by a line feed. *)
Definition unlines (ls : list string) : string :=
  fold_right (fun l acc => l +:+ nl +:+ acc) EmptyString ls.

(** [idempotentRotateScript]: the raw string literal of the source, line
    by line (it opens with an empty line). *)
Definition idempotentRotateScript : string :=
  unlines [
    "";
    "#!/bin/sh";
    "";
    "currentGeneration=" +:+ dq +:+ dq;
    "targetGeneration=$2";
    "runtime=$1";
    "shift";
    "shift";
    "";
    "dataRoot=" +:+ dq +:+ "/var/lib/rancher/$runtime/certificate_rotation" +:+ dq;
    "generationFile=" +:+ dq +:+ "$dataRoot/generation" +:+ dq;
    "";
    "currentGeneration=$(cat " +:+ dq +:+ "$generationFile" +:+ dq
       +:+ " || echo " +:+ dq +:+ dq +:+ ")";
    "";
    "if [ " +:+ dq +:+ "$currentGeneration" +:+ dq +:+ " != "
       +:+ dq +:+ "$targetGeneration" +:+ dq +:+ " ]; then";
    "  $runtime certificate rotate  $@";
    "else";
    tab +:+ "echo " +:+ dq
       +:+ "certificates have already been rotated to the current generation."
       +:+ dq;
    "fi";
    "";
    "mkdir -p $dataRoot";
    "echo $targetGeneration > " +:+ dq +:+ "$generationFile" +:+ dq
  ].

(** ** Stateful calls *)

Section Calls.

Context `{X : Externals}.

(** One call to a collaborator, with what it was given and whether it
    failed. *)
Inductive Event : Type :=
| EvFindInit (found : bool) (joinServer : string) (err : option error)
| EvGenerate (entry : planEntry) (joinServer : string) (renderS3 : bool)
             (err : option error)
| EvAssign (msg : string) (entry : planEntry) (nodePlan : NodePlan)
           (joinedServer : string) (minWait maxWait : Z) (err : option error)
| EvPause (paused : bool) (err : option error).

Record PState : Type := {
  world : World;
  events : list Event
}.

Definition record (w : World) (ev : Event) (s : PState) : PState :=
  {| world := w; events := events s ++ [ev] |}.

(** The planner monad: state passing over [PState]. *)
Definition M (A : Type) : Type := PState -> A * PState.

Definition ret {A : Type} (a : A) : M A := fun s => (a, s).

Definition bind {A B : Type} (m : M A) (k : A -> M B) : M B :=
  fun s => let r := m s in k (fst r) (snd r).

Definition doFindInitNode (controlPlane : RKEControlPlane) (clusterPlan : Plan)
  : M (bool * string * option planEntry * option error) :=
  fun s =>
    let r := findInitNode (world s) controlPlane clusterPlan in
    (fst r,
     record (snd r)
       (EvFindInit (fst (fst (fst (fst r)))) (snd (fst (fst (fst r)))) (snd (fst r))) s).

Definition doGeneratePlanWithConfigFiles (controlPlane : RKEControlPlane)
    (tokensSecret : Secret) (entry : planEntry) (joinServer : string) (renderS3 : bool)
  : M (NodePlan * gmap string ArgValue * string * option error) :=
  fun s =>
    let r := generatePlanWithConfigFiles (world s) controlPlane tokensSecret
               entry joinServer renderS3 in
    (fst r, record (snd r) (EvGenerate entry joinServer renderS3 (snd (fst r))) s).

Definition doAssignAndCheckPlan (msg : string) (entry : planEntry)
    (nodePlan : NodePlan) (joinedServer : string) (minWait maxWait : Z)
  : M (option error) :=
  fun s =>
    let r := assignAndCheckPlan (world s) msg entry nodePlan joinedServer
               minWait maxWait in
    (fst r,
     record (snd r) (EvAssign msg entry nodePlan joinedServer minWait maxWait (fst r)) s).

Definition doPauseCAPICluster (controlPlane : RKEControlPlane) (paused : bool)
  : M (option error) :=
  fun s =>
    let r := pauseCAPICluster (world s) controlPlane paused in
    (fst r, record (snd r) (EvPause paused (fst r)) s).

End Calls.

Notation "x <- c ;; k" := (bind c (fun x => k))
  (at level 100, c at next level, right associativity).

(** ** Plan composer and orchestrator *)

Section Rotation.

Context `{X : Externals}.

(** [rotateCertificatesPlan]: rotate the certificates of the requested
    services (all of them when none is named) and restart the service.
    The result is the node plan, the joined server and the error. *)
Definition rotateCertificatesPlan (controlPlane : RKEControlPlane)
    (tokensSecret : Secret) (rotation : RotateCertificates)
    (entry : planEntry) (joinServer : string)
  : M (NodePlan * string * option error) :=
  let joinServer := if isOnlyWorker entry then "" else joinServer in
  r <- doGeneratePlanWithConfigFiles controlPlane tokensSecret entry joinServer true ;;
  let '(rotatePlan, config, joinedServer, err) := r in
  match err with
  | Some e => ret (emptyNodePlan, joinedServer, Some e)
  | None =>
    if isOnlyWorker entry then
      let rotatePlan := appendInstructions rotatePlan [
        {| Name := "restart";
           Command := "systemctl";
           Args := ["restart";
                    GetRuntimeAgentUnit (KubernetesVersion (Spec controlPlane))] |} ] in
      ret (rotatePlan, joinedServer, None)
    else
      let rotateScriptPath :=
        "/var/lib/rancher/" +:+ GetRuntime (KubernetesVersion (Spec controlPlane))
          +:+ "/rancher_v2prov_certificate_rotation/bin/rotate.sh" in
      let runtime := GetRuntime (KubernetesVersion (Spec controlPlane)) in
      let args := [
        "-xe";
        rotateScriptPath;
        GetRuntime (KubernetesVersion (Spec controlPlane));
        strconv.FormatInt10 (Generation rotation) ] in
      let args :=
        if (0 <? length (Services rotation))%nat
        then fold_left (fun (args : list string) service => (args ++ ["-s"; service])%list)
                       (Services rotation) args
        else args in
      let rotatePlan := appendFile rotatePlan
        {| Content := base64EncodeToString idempotentRotateScript;
           Path := rotateScriptPath |} in
      let rotatePlan := appendInstructions rotatePlan [
        {| Name := "rotate certificates"; Command := "sh"; Args := args |} ] in
      let rotatePlan :=
        if isControlPlane entry then
          let rotatePlan :=
            if rotationContainsService (Some rotation) "controller-manager" then
              let kcmCertDir :=
                getArgValue (config !! KubeControllerManagerArg) CertDirArgument "=" in
              if negb (String.eqb kcmCertDir "")
                 && String.eqb
                      (getArgValue (config !! KubeControllerManagerArg)
                         TLSCertFileArgument "=") ""
              then
                let rotatePlan := appendInstructions rotatePlan [
                  {| Name := "remove kube-controller-manager cert for regeneration";
                     Command := "rm";
                     Args := ["-f";
                              sprintf_slash kcmCertDir DefaultKubeControllerManagerCert] |};
                  {| Name := "remove kube-controller-manager key for regeneration";
                     Command := "rm";
                     Args := ["-f";
                              sprintf_slash kcmCertDir
                                (strings.ReplaceAll DefaultKubeControllerManagerCert
                                   ".crt" ".key")] |} ] in
                if String.eqb runtime RuntimeRKE2 then
                  appendInstructions rotatePlan [
                    {| Name := "remove kube-controller-manager static pod manifest";
                       Command := "rm";
                       Args := ["-f";
                                "/var/lib/rancher/rke2/agent/pod-manifests/kube-controller-manager.yaml"] |} ]
                else rotatePlan
              else rotatePlan
            else rotatePlan in
          if rotationContainsService (Some rotation) "scheduler" then
            let ksCertDir :=
              getArgValue (config !! KubeSchedulerArg) CertDirArgument "=" in
            if negb (String.eqb ksCertDir "")
               && String.eqb
                    (getArgValue (config !! KubeSchedulerArg)
                       TLSCertFileArgument "=") ""
            then
              let rotatePlan := appendInstructions rotatePlan [
                {| Name := "remove kube-scheduler cert for regeneration";
                   Command := "rm";
                   Args := ["-f"; sprintf_slash ksCertDir KubeSchedulerArg] |};
                {| Name := "remove kube-scheduler key for regeneration";
                   Command := "rm";
                   Args := ["-f";
                            sprintf_slash ksCertDir
                              (strings.ReplaceAll KubeSchedulerArg ".crt" ".key")] |} ] in
              if String.eqb runtime RuntimeRKE2 then
                appendInstructions rotatePlan [
                  {| Name := "remove kube-scheduler static pod manifest";
                     Command := "rm";
                     Args := ["-f";
                              "/var/lib/rancher/rke2/agent/pod-manifests/kube-scheduler.yaml"] |} ]
              else rotatePlan
            else rotatePlan
          else rotatePlan
        else rotatePlan in
      let rotatePlan :=
        if String.eqb runtime RuntimeRKE2 then
          let gi := generateManifestRemovalInstruction runtime entry in
          if fst gi then appendInstructions rotatePlan [snd gi] else rotatePlan
        else rotatePlan in
      let rotatePlan := appendInstructions rotatePlan [
        {| Name := "restart";
           Command := "systemctl";
           Args := ["restart";
                    GetRuntimeServerUnit (KubernetesVersion (Spec controlPlane))] |} ] in
      ret (rotatePlan, joinedServer, None)
  end.

(** The loop of [rotateCertificates] over the collected entries.
    [Some out] is a [return out] from inside the loop, [None] is the
    loop running to its end. *)
Fixpoint rotateEntries (controlPlane : RKEControlPlane)
    (status : RKEControlPlaneStatus) (tokensSecret : Secret)
    (rotation : RotateCertificates) (joinServer : string)
    (nodes : list planEntry)
  : M (option (RKEControlPlaneStatus * option error)) :=
  match nodes with
  | [] => ret None
  | node :: nodes' =>
      if negb (shouldRotateEntry rotation node) then
        rotateEntries controlPlane status tokensSecret rotation joinServer nodes'
      else
        r <- rotateCertificatesPlan controlPlane tokensSecret rotation node joinServer ;;
        let '(rotatePlan, joinedServer, err) := r in
        match err with
        | Some e => ret (Some (status, Some e))
        | None =>
            err <- doAssignAndCheckPlan (sprintf_rotation (machineName node))
                     node rotatePlan joinedServer 0 0 ;;
            match err with
            | Some e =>
                pauseErr <- doPauseCAPICluster controlPlane true ;;
                match pauseErr with
                | Some pe => ret (Some (status, Some pe))
                | None => ret (Some (status, Some e))
                end
            | None =>
                rotateEntries controlPlane status tokensSecret rotation joinServer nodes'
            end
        end
  end.

(** [rotateCertificates]: check whether certificates need rotating and
    update the plans accordingly. *)
Definition rotateCertificates (controlPlane : RKEControlPlane)
    (status : RKEControlPlaneStatus) (tokensSecret : Secret) (clusterPlan : Plan)
  : M (RKEControlPlaneStatus * option error) :=
  if negb (shouldRotate controlPlane) then ret (status, None)
  else
    r <- doFindInitNode controlPlane clusterPlan ;;
    let '(found, joinServer, _, err) := r in
    match err with
    | Some e => ret (status, Some e)
    | None =>
        if negb found || String.eqb joinServer "" then ret (status, None)
        else
          match Spec_RotateCertificates (Spec controlPlane) with
          | None =>
              (* not reached: [shouldRotate] is false on a nil request *)
              ret (status, None)
          | Some rotation =>
              out <- rotateEntries controlPlane status tokensSecret rotation
                       joinServer (collect clusterPlan anyRole) ;;
              match out with
              | Some returned => ret returned
              | None =>
                  err <- doPauseCAPICluster controlPlane false ;;
                  match err with
                  | Some _ => ret (status, Some (errWaiting "unpausing CAPI cluster"))
                  | None =>
                      ret (setCertificateRotationGeneration status (Generation rotation),
                           Some (errWaiting "certificate rotation done"))
                  end
              end
          end
    end.

End Rotation.

(** ** Vocabulary of the specification *)

Section Vocabulary.

Context `{X : Externals}.

(** The fixed role-to-service mapping, in the words of the
    specification: the server runtime is [rke2-server] or [k3s-server],
    the runtime controller [rke2-controller] or [k3s-controller]. *)
Definition workerServices : list string :=
  ["rke2-server"; "k3s-server"; "api-server"; "kubelet"; "kube-proxy"; "auth-proxy"].

Definition controlPlaneOnlyServices : list string :=
  ["controller-manager"; "scheduler"; "rke2-controller"; "k3s-controller";
   "admin"; "cloud-controller"].

Definition etcdServices : list string :=
  ["etcd"; "kubelet"; "k3s-server"; "rke2-server"].

(** A service is relevant to an entry when one of the entry's roles
    implies it. *)
Definition roleImplies (entry : planEntry) (service : string) : Prop :=
  (isWorker entry = true /\ service ∈ workerServices)
  \/ (isControlPlane entry = true
      /\ (service ∈ workerServices \/ service ∈ controlPlaneOnlyServices))
  \/ (isEtcd entry = true /\ service ∈ etcdServices).

(** The request names [service], or names nothing at all. *)
Definition requestIncludesService (rotation : RotateCertificates) (service : string) : Prop :=
  Services rotation = [] \/ service ∈ Services rotation.

(** The groups of instructions a composed plan is made of. *)

Definition rotateScriptPath (controlPlane : RKEControlPlane) : string :=
  "/var/lib/rancher/" +:+ GetRuntime (KubernetesVersion (Spec controlPlane))
    +:+ "/rancher_v2prov_certificate_rotation/bin/rotate.sh".

Definition rotateScriptFile (controlPlane : RKEControlPlane) : File :=
  {| Content := base64EncodeToString idempotentRotateScript;
     Path := rotateScriptPath controlPlane |}.

(** Runs the rotation script with the runtime, the target generation
    and a [-s] flag for every named service. *)
Definition rotateInstruction (controlPlane : RKEControlPlane)
    (rotation : RotateCertificates) : OneTimeInstruction :=
  {| Name := "rotate certificates";
     Command := "sh";
     Args :=
       fold_left (fun (args : list string) service => (args ++ ["-s"; service])%list)
         (Services rotation)
         ["-xe"; rotateScriptPath controlPlane;
          GetRuntime (KubernetesVersion (Spec controlPlane));
          strconv.FormatInt10 (Generation rotation)] |}.

Definition restartInstruction (unit : string) : OneTimeInstruction :=
  {| Name := "restart"; Command := "systemctl"; Args := ["restart"; unit] |}.

Definition removeInstruction (what path : string) : OneTimeInstruction :=
  {| Name := what; Command := "rm"; Args := ["-f"; path] |}.

(** The service keeps a certificate directory and was given no TLS
    certificate file of its own: it signs its certificate itself. *)
Definition selfSigns (config : gmap string ArgValue) (serviceArg : string) : bool :=
  negb (String.eqb (getArgValue (config !! serviceArg) CertDirArgument "=") "")
  && String.eqb (getArgValue (config !! serviceArg) TLSCertFileArgument "=") "".

Definition staticManifestRemoval (controlPlane : RKEControlPlane)
    (what path : string) : list OneTimeInstruction :=
  if String.eqb (GetRuntime (KubernetesVersion (Spec controlPlane))) RuntimeRKE2
  then [removeInstruction what path] else [].

(** What is appended for the controller manager. *)
Definition controllerManagerRemovals (controlPlane : RKEControlPlane)
    (rotation : RotateCertificates) (config : gmap string ArgValue)
  : list OneTimeInstruction :=
  if rotationContainsService (Some rotation) "controller-manager"
     && selfSigns config KubeControllerManagerArg
  then
    let certDir := getArgValue (config !! KubeControllerManagerArg) CertDirArgument "=" in
    [ removeInstruction "remove kube-controller-manager cert for regeneration"
        (sprintf_slash certDir DefaultKubeControllerManagerCert);
      removeInstruction "remove kube-controller-manager key for regeneration"
        (sprintf_slash certDir
           (strings.ReplaceAll DefaultKubeControllerManagerCert ".crt" ".key")) ]
    ++ staticManifestRemoval controlPlane
         "remove kube-controller-manager static pod manifest"
         "/var/lib/rancher/rke2/agent/pod-manifests/kube-controller-manager.yaml"
  else [].

(** What is appended for the scheduler; the file name is the one the
    code passes, [KubeSchedulerArg]. *)
Definition schedulerRemovals (controlPlane : RKEControlPlane)
    (rotation : RotateCertificates) (config : gmap string ArgValue)
  : list OneTimeInstruction :=
  if rotationContainsService (Some rotation) "scheduler"
     && selfSigns config KubeSchedulerArg
  then
    let certDir := getArgValue (config !! KubeSchedulerArg) CertDirArgument "=" in
    [ removeInstruction "remove kube-scheduler cert for regeneration"
        (sprintf_slash certDir KubeSchedulerArg);
      removeInstruction "remove kube-scheduler key for regeneration"
        (sprintf_slash certDir (strings.ReplaceAll KubeSchedulerArg ".crt" ".key")) ]
    ++ staticManifestRemoval controlPlane
         "remove kube-scheduler static pod manifest"
         "/var/lib/rancher/rke2/agent/pod-manifests/kube-scheduler.yaml"
  else [].

(** What the manifest removal policy adds on the RKE2 runtime. *)
Definition policyRemoval (controlPlane : RKEControlPlane) (entry : planEntry)
  : list OneTimeInstruction :=
  let runtime := GetRuntime (KubernetesVersion (Spec controlPlane)) in
  if String.eqb runtime RuntimeRKE2
     && fst (generateManifestRemovalInstruction runtime entry)
  then [snd (generateManifestRemovalInstruction runtime entry)] else [].

(** The call succeeded; for the init node lookup, it also found a
    node with a join address. *)
Definition eventOk (ev : Event) : bool :=
  match ev with
  | EvFindInit found joinServer err =>
      found && negb (String.eqb joinServer "") && bool_decide (err = None)
  | EvGenerate _ _ _ err => bool_decide (err = None)
  | EvAssign _ _ _ _ _ _ err => bool_decide (err = None)
  | EvPause _ err => bool_decide (err = None)
  end.

Definition isPause (ev : Event) : bool :=
  match ev with
  | EvPause _ _ => true
  | _ => false
  end.

(** The event is not a failed plan dispatch. *)
Definition dispatchOk (ev : Event) : bool :=
  match ev with
  | EvAssign _ _ _ _ _ _ err => bool_decide (err = None)
  | _ => true
  end.

(** The entries a plan was dispatched to, in order. *)
Definition dispatched (evs : list Event) : list planEntry :=
  flat_map (fun ev => match ev with
                      | EvAssign _ entry _ _ _ _ _ => [entry]
                      | _ => []
                      end) evs.

(** The entries of the cluster plan that the relevance filter keeps. *)
Definition eligible (rotation : RotateCertificates) (clusterPlan : Plan) : list planEntry :=
  List.filter (shouldRotateEntry rotation) (collect clusterPlan anyRole).

(** The events a computation adds to the ones already recorded. *)
Definition added (before after : PState) : list Event :=
  drop (length (events before)) (events after).

End Vocabulary.

(** ** The return paths of a rotation pass, as traces *)

Section Traces.

Context `{X : Externals}.

Variables (controlPlane : RKEControlPlane) (status : RKEControlPlaneStatus)
          (clusterPlan : Plan).

(** The error handed to the caller after a failed dispatch: the pause
    error if pausing failed as well, the dispatch error otherwise. *)
Definition afterPause (pauseErr : option error) (dispatchErr : error) : error :=
  match pauseErr with
  | Some pe => pe
  | None => dispatchErr
  end.

(** [LoopRun rotation joinServer nodes evs out]: iterating over [nodes]
    records the events [evs] and either returns [out] from inside the
    loop or, with [out = None], reaches its end. *)
Inductive LoopRun (rotation : RotateCertificates) (joinServer : string)
  : list planEntry -> list Event
    -> option (RKEControlPlaneStatus * option error) -> Prop :=
| LoopEnd :
    LoopRun rotation joinServer [] [] None
| LoopSkip node nodes evs out :
    shouldRotateEntry rotation node = false ->
    LoopRun rotation joinServer nodes evs out ->
    LoopRun rotation joinServer (node :: nodes) evs out
| LoopComposeError node nodes e :
    shouldRotateEntry rotation node = true ->
    LoopRun rotation joinServer (node :: nodes)
      [EvGenerate node (if isOnlyWorker node then "" else joinServer) true (Some e)]
      (Some (status, Some e))
| LoopDispatchError node nodes nodePlan joinedServer e pauseErr :
    shouldRotateEntry rotation node = true ->
    LoopRun rotation joinServer (node :: nodes)
      [EvGenerate node (if isOnlyWorker node then "" else joinServer) true None;
       EvAssign (sprintf_rotation (machineName node)) node nodePlan joinedServer 0 0
         (Some e);
       EvPause true pauseErr]
      (Some (status, Some (afterPause pauseErr e)))
| LoopNext node nodes nodePlan joinedServer evs out :
    shouldRotateEntry rotation node = true ->
    LoopRun rotation joinServer nodes evs out ->
    LoopRun rotation joinServer (node :: nodes)
      (EvGenerate node (if isOnlyWorker node then "" else joinServer) true None
       :: EvAssign (sprintf_rotation (machineName node)) node nodePlan joinedServer 0 0
            None
       :: evs)
      out.

(** [PassRun evs result]: one call of [rotateCertificates] records
    [evs] and returns [result]. *)
Inductive PassRun : list Event -> RKEControlPlaneStatus * option error -> Prop :=
| PassNotDue :
    shouldRotate controlPlane = false ->
    PassRun [] (status, None)
| PassLookupError found joinServer e :
    shouldRotate controlPlane = true ->
    PassRun [EvFindInit found joinServer (Some e)] (status, Some e)
| PassNoInitNode found joinServer :
    shouldRotate controlPlane = true ->
    negb found || String.eqb joinServer "" = true ->
    PassRun [EvFindInit found joinServer None] (status, None)
| PassReturned rotation joinServer evs returned :
    shouldRotate controlPlane = true ->
    Spec_RotateCertificates (Spec controlPlane) = Some rotation ->
    String.eqb joinServer "" = false ->
    LoopRun rotation joinServer (collect clusterPlan anyRole) evs (Some returned) ->
    PassRun (EvFindInit true joinServer None :: evs) returned
| PassUnpauseError rotation joinServer evs e :
    shouldRotate controlPlane = true ->
    Spec_RotateCertificates (Spec controlPlane) = Some rotation ->
    String.eqb joinServer "" = false ->
    LoopRun rotation joinServer (collect clusterPlan anyRole) evs None ->
    PassRun (EvFindInit true joinServer None :: evs ++ [EvPause false (Some e)])
      (status, Some (errWaiting "unpausing CAPI cluster"))
| PassDone rotation joinServer evs :
    shouldRotate controlPlane = true ->
    Spec_RotateCertificates (Spec controlPlane) = Some rotation ->
    String.eqb joinServer "" = false ->
    LoopRun rotation joinServer (collect clusterPlan anyRole) evs None ->
    PassRun (EvFindInit true joinServer None :: evs ++ [EvPause false None])
      (setCertificateRotationGeneration status (Generation rotation),
       Some (errWaiting "certificate rotation done")).

End Traces.

(** ** The recorded calls and the calls made *)

Section Replaying.

Context `{X : Externals}.

Variables (controlPlane : RKEControlPlane) (tokensSecret : Secret)
          (clusterPlan : Plan).

(** [Replay w evs w']: the events [evs] are what the collaborators
    answer when they are called, in this order, starting in the world
    [w], and [w'] is the world the last of them leaves.  Each event
    holds the arguments of its call and the error the call returned. *)
Inductive Replay : World -> list Event -> World -> Prop :=
| ReplayDone w :
    Replay w [] w
| ReplayFindInit w w1 w' found joinServer initNode err evs :
    findInitNode w controlPlane clusterPlan = ((found, joinServer, initNode, err), w1) ->
    Replay w1 evs w' ->
    Replay w (EvFindInit found joinServer err :: evs) w'
| ReplayGenerate w w1 w' entry joinServer renderS3 nodePlan config joinedServer err evs :
    generatePlanWithConfigFiles w controlPlane tokensSecret entry joinServer renderS3
      = ((nodePlan, config, joinedServer, err), w1) ->
    Replay w1 evs w' ->
    Replay w (EvGenerate entry joinServer renderS3 err :: evs) w'
| ReplayAssign w w1 w' msg entry nodePlan joinedServer minWait maxWait err evs :
    assignAndCheckPlan w msg entry nodePlan joinedServer minWait maxWait = (err, w1) ->
    Replay w1 evs w' ->
    Replay w (EvAssign msg entry nodePlan joinedServer minWait maxWait err :: evs) w'
| ReplayPause w w1 w' paused err evs :
    pauseCAPICluster w controlPlane paused = (err, w1) ->
    Replay w1 evs w' ->
    Replay w (EvPause paused err :: evs) w'.

(** A computation is faithful when the events it records are the calls
    it makes: they replay from the world it starts in to the world it
    ends in. *)
Definition Faithful {A : Type} (m : M A) : Prop :=
  forall (s s' : PState) (a : A),
    m s = (a, s') ->
    exists evs, events s' = events s ++ evs /\ Replay (world s) evs (world s').

End Replaying.

(** ** A concrete instance of the interface

    A small cluster model on which the definitions above can be run:
    entries carry their role flags, the world says which machines fail
    to apply a plan and whether pausing works, and the rendered config
    is fixed by the world. *)

Module Sample.

Record Entry : Type := {
  name : string;
  etcd : bool;
  controlPlane : bool;
  worker : bool
}.

Record Cluster : Type := {
  renderedConfig : gmap string (list string);
  renderFails : bool;
  badMachines : list string;
  pauseBroken : bool;
  paused : bool;
  applied : list string
}.

Fixpoint dropPrefix (p s : string) : option string :=
  match p, s with
  | EmptyString, _ => Some s
  | String _ _, EmptyString => None
  | String a p', String b s' => if Ascii.eqb a b then dropPrefix p' s' else None
  end.

Fixpoint contains (s sub : string) : bool :=
  strings.HasPrefix s sub ||
  match s with
  | EmptyString => false
  | String _ s' => contains s' sub
  end.

Definition argValue (arg : option (list string)) (searchArg delim : string) : string :=
  match arg with
  | None => ""
  | Some l =>
      fold_right
        (fun a acc =>
           match dropPrefix (searchArg +:+ delim) a with
           | Some v => if String.eqb v "" then acc else v
           | None => acc
           end) "" l
  end.

Definition runtimeOf (version : string) : string :=
  if contains version "rke2" then "rke2" else "k3s".

Definition initNode (w : Cluster) (cp : RKEControlPlane) (p : list Entry)
  : (bool * string * option Entry * option error) * Cluster :=
  match List.find etcd p with
  | Some e => ((true, "https://" +:+ name e +:+ ":9345", Some e, None), w)
  | None => ((false, "", None, None), w)
  end.

Definition basePlan (w : Cluster) (cp : RKEControlPlane) (ts : unit) (e : Entry)
    (joinServer : string) (renderS3 : bool)
  : (NodePlan * gmap string (list string) * string * option error) * Cluster :=
  if renderFails w then
    ((emptyNodePlan, ∅, "", Some (errExternal "render failed")), w)
  else
    (({| Files := [ {| Content := "server: " +:+ joinServer;
                       Path := "/etc/rancher/config.yaml" |} ];
         Instructions := [] |},
      renderedConfig w, joinServer, None), w).

Definition assign (w : Cluster) (msg : string) (e : Entry) (np : NodePlan)
    (joinedServer : string) (minWait maxWait : Z) : option error * Cluster :=
  if existsb (String.eqb (name e)) (badMachines w) then
    (Some (errExternal "plan failed"), w)
  else
    (None,
     {| renderedConfig := renderedConfig w; renderFails := renderFails w;
        badMachines := badMachines w; pauseBroken := pauseBroken w;
        paused := paused w; applied := applied w ++ [name e] |}).

Definition pause (w : Cluster) (cp : RKEControlPlane) (b : bool)
  : option error * Cluster :=
  if pauseBroken w then (Some (errExternal "pause failed"), w)
  else
    (None,
     {| renderedConfig := renderedConfig w; renderFails := renderFails w;
        badMachines := badMachines w; pauseBroken := pauseBroken w;
        paused := b; applied := applied w |}).

Definition externals : Externals := {|
  World := Cluster;
  planEntry := Entry;
  Plan := list Entry;
  Secret := unit;
  ArgValue := list string;
  machineName := name;
  isEtcd := etcd;
  isControlPlane := controlPlane;
  isWorker := worker;
  isOnlyWorker := fun e => negb (etcd e) && negb (controlPlane e);
  anyRole := fun _ => true;
  collect := fun p f => List.filter f p;
  getArgValue := argValue;
  KubeControllerManagerArg := "kube-controller-manager-arg";
  KubeSchedulerArg := "kube-scheduler-arg";
  CertDirArgument := "cert-dir";
  TLSCertFileArgument := "tls-cert-file";
  DefaultKubeControllerManagerCert := "kube-controller-manager.crt";
  GetRuntime := runtimeOf;
  GetRuntimeAgentUnit := fun v => runtimeOf v +:+ "-agent";
  GetRuntimeServerUnit := fun v => if contains v "rke2" then "rke2-server" else "k3s";
  RuntimeRKE2 := "rke2";
  generateManifestRemovalInstruction :=
    fun _ _ => (false, {| Name := ""; Command := ""; Args := [] |});
  base64EncodeToString := fun s => s;
  findInitNode := initNode;
  generatePlanWithConfigFiles := basePlan;
  assignAndCheckPlan := assign;
  pauseCAPICluster := pause
|}.

Definition etcdNode : Entry :=
  {| name := "etcd-0"; etcd := true; controlPlane := false; worker := false |}.
Definition cpNode : Entry :=
  {| name := "cp-0"; etcd := false; controlPlane := true; worker := false |}.
Definition workerNode : Entry :=
  {| name := "worker-0"; etcd := false; controlPlane := false; worker := true |}.
Definition allNode : Entry :=
  {| name := "all-0"; etcd := true; controlPlane := true; worker := true |}.

Definition nodes : list Entry := [etcdNode; cpNode; workerNode].

Definition selfSigned : gmap string (list string) :=
  <[ "kube-controller-manager-arg" :=
       ["cert-dir=/var/lib/rancher/rke2/server/tls/kube-controller-manager"] ]>
  (<[ "kube-scheduler-arg" :=
       ["cert-dir=/var/lib/rancher/rke2/server/tls/kube-scheduler"] ]> ∅).

Definition suppliedCert : gmap string (list string) :=
  <[ "kube-controller-manager-arg" :=
       ["cert-dir=/var/lib/rancher/rke2/server/tls/kube-controller-manager";
        "tls-cert-file=/etc/ssl/kcm.crt"] ]> ∅.

Definition healthy : Cluster :=
  {| renderedConfig := selfSigned; renderFails := false; badMachines := [];
     pauseBroken := false; paused := false; applied := [] |}.

Definition withSuppliedCert : Cluster :=
  {| renderedConfig := suppliedCert; renderFails := false; badMachines := [];
     pauseBroken := false; paused := false; applied := [] |}.

Definition cpFails : Cluster :=
  {| renderedConfig := selfSigned; renderFails := false; badMachines := ["cp-0"];
     pauseBroken := false; paused := false; applied := [] |}.

Definition cpFailsNoPause : Cluster :=
  {| renderedConfig := selfSigned; renderFails := false; badMachines := ["cp-0"];
     pauseBroken := true; paused := false; applied := [] |}.

Definition noPause : Cluster :=
  {| renderedConfig := selfSigned; renderFails := false; badMachines := [];
     pauseBroken := true; paused := false; applied := [] |}.

Definition request (g : Z) (svcs : list string) : RotateCertificates :=
  {| Generation := g; Services := svcs |}.

(** Generation [g] requested, generation [applied] in the status. *)
Definition cluster (version : string) (rotation : option RotateCertificates)
    (init : bool) (appliedGen : Z) : RKEControlPlane :=
  {| Namespace := "fleet-default"; rkev1.Name := "demo";
     Spec := {| Spec_RotateCertificates := rotation; KubernetesVersion := version |};
     Status := {| Initialized := init;
                  CertificateRotationGeneration := appliedGen |} |}.

Definition rke2 : string := "v1.27.6+rke2r1".
Definition k3s : string := "v1.27.6+k3s1".

Definition start (w : Cluster) : @PState externals :=
  @Build_PState externals w [].

End Sample.

(** * Properties *)

(** ** Rotation trigger *)

(** C1. [shouldRotate] is true exactly when a rotation request is
    present, the cluster is initialized and the generation recorded in
    the status differs from the requested one; otherwise it is false. *)
Theorem shouldRotate_iff (cp : RKEControlPlane) :
  (shouldRotate cp = true <->
     exists rotation,
       Spec_RotateCertificates (Spec cp) = Some rotation
       /\ Initialized (Status cp) = true
       /\ CertificateRotationGeneration (Status cp) <> Generation rotation)
  /\ (shouldRotate cp = false <->
      Spec_RotateCertificates (Spec cp) = None
      \/ Initialized (Status cp) = false
      \/ exists rotation,
           Spec_RotateCertificates (Spec cp) = Some rotation
           /\ CertificateRotationGeneration (Status cp) = Generation rotation).
Proof.
  unfold shouldRotate.
  destruct (Spec_RotateCertificates (Spec cp)) as [rotation|];
    destruct (Initialized (Status cp)); simpl;
    destruct (Z.eqb_spec (CertificateRotationGeneration (Status cp)) (Generation rotation))
      as [Heq|Hne] || idtac; simpl.
  all: split; split.
  all: try (intros [r (Hr & Hi & Hg)]; congruence).
  all: try (intros [Hr|[Hi|[r [Hr Hg]]]]; congruence).
  all: try discriminate.
  all: try (intros _; eexists; repeat split; eauto; fail).
  all: try (intros _; eauto; fail).
  all: try (intros _; right; right; eexists; split; eauto; fail).
Qed.

(** ** Service relevance filter *)

Section RelevanceFacts.

Context `{X : Externals}.

(** The map filled by the code holds exactly the services the roles of
    the entry imply under the fixed mapping. *)
Lemma relevantServices_roleImplies (entry : planEntry) (service : string) :
  service ∈ relevantServices entry <-> roleImplies entry service.
Proof.
  unfold relevantServices, roleImplies, setKey,
    workerServices, controlPlaneOnlyServices, etcdServices.
  destruct (isWorker entry), (isControlPlane entry), (isEtcd entry);
    set_solver.
Qed.

Lemma existsb_relevant (services : list string) (entry : planEntry) :
  existsb (fun service => bool_decide (service ∈ relevantServices entry)) services = true
  <-> exists service, service ∈ services /\ service ∈ relevantServices entry.
Proof.
  rewrite existsb_exists. split.
  - intros [x [Hin Hx]]. exists x. split.
    + by apply list_elem_of_In.
    + by apply bool_decide_eq_true in Hx.
  - intros [x [Hin Hx]]. exists x. split.
    + by apply list_elem_of_In.
    + by apply bool_decide_eq_true.
Qed.

Lemma length_zero_nil {A : Type} (l : list A) :
  (length l =? 0)%nat = true <-> l = [].
Proof.
  destruct l; simpl; split; intros; try done.
Qed.

Lemma shouldRotateEntry_true_iff (rotation : RotateCertificates) (entry : planEntry) :
  shouldRotateEntry rotation entry = true <->
    Services rotation = []
    \/ exists service, service ∈ Services rotation /\ service ∈ relevantServices entry.
Proof.
  unfold shouldRotateEntry.
  destruct (length (Services rotation) =? 0)%nat eqn:Hlen.
  - apply length_zero_nil in Hlen. split; auto.
  - rewrite existsb_relevant. split; [auto|].
    intros [Hnil|Hex]; [|done].
    apply length_zero_nil in Hnil. congruence.
Qed.

(** Each role only adds services, and what the worker role implies the
    control-plane role implies too. *)
Lemma relevantServices_mono (e1 e2 : planEntry) :
  (isWorker e1 = true -> isWorker e2 = true \/ isControlPlane e2 = true) ->
  (isControlPlane e1 = true -> isControlPlane e2 = true) ->
  (isEtcd e1 = true -> isEtcd e2 = true) ->
  relevantServices e1 ⊆ relevantServices e2.
Proof.
  intros Hw Hc He service. rewrite !relevantServices_roleImplies.
  unfold roleImplies. intros [[H1 H2]|[[H1 H2]|[H1 H2]]].
  - destruct (Hw H1); [left | right; left]; auto.
  - right; left; auto.
  - right; right; auto.
Qed.

End RelevanceFacts.

(** C2. With an empty service list [shouldRotateEntry] is true; with a
    non-empty list it is true exactly when a requested service lies in
    the set built from the roles of the entry, and that set is the one
    the fixed mapping gives: worker implies server runtime, api-server,
    kubelet, kube-proxy and auth-proxy; control plane implies those and
    controller-manager, scheduler, runtime controller, admin and
    cloud-controller; etcd implies etcd, kubelet and server runtime.  A
    non-empty list disjoint from the set gives false. *)
Theorem shouldRotateEntry_spec `{X : Externals}
    (rotation : RotateCertificates) (entry : planEntry) :
  (shouldRotateEntry rotation entry = true <->
     Services rotation = []
     \/ exists service, service ∈ Services rotation /\ service ∈ relevantServices entry)
  /\ (shouldRotateEntry rotation entry = false <->
      Services rotation <> []
      /\ forall service, service ∈ Services rotation -> service ∉ relevantServices entry)
  /\ (forall service, service ∈ relevantServices entry <-> roleImplies entry service).
Proof.
  pose proof (shouldRotateEntry_true_iff rotation entry) as Htrue.
  split; [exact Htrue|]. split.
  - rewrite <- not_true_iff_false, Htrue. split.
    + intros Hno. split.
      * intros Hnil. apply Hno. by left.
      * intros service Hin Hrel. apply Hno. right. by exists service.
    + intros [Hne Hdisj] [Hnil|[service [Hin Hrel]]]; [done|].
      by apply (Hdisj service).
  - intros service. apply relevantServices_roleImplies.
Qed.

(** C10. [shouldRotateEntry] is monotone in the role flags: for a
    non-empty service list, an entry holding every role of another one
    (worker, control plane, etcd) is kept whenever the other one is,
    because its relevant-service set includes the other's. *)
Theorem shouldRotateEntry_monotone `{X : Externals}
    (rotation : RotateCertificates) (e1 e2 : planEntry) :
  Services rotation <> [] ->
  (isWorker e1 = true -> isWorker e2 = true) ->
  (isControlPlane e1 = true -> isControlPlane e2 = true) ->
  (isEtcd e1 = true -> isEtcd e2 = true) ->
  shouldRotateEntry rotation e1 = true ->
  relevantServices e1 ⊆ relevantServices e2
  /\ shouldRotateEntry rotation e2 = true.
Proof.
  intros _ Hw Hc He H1.
  assert (Hsub : relevantServices e1 ⊆ relevantServices e2).
  { apply relevantServices_mono; auto. }
  split; [exact Hsub|].
  apply shouldRotateEntry_true_iff in H1.
  apply shouldRotateEntry_true_iff.
  destruct H1 as [Hnil|[service [Hin Hrel]]]; [by left|].
  right. exists service. split; [done|]. by apply Hsub.
Qed.

Lemma shouldRotateEntry_monotone_witness :
  shouldRotateEntry (X := Sample.externals) (Sample.request 5 ["kubelet"]) Sample.allNode = true.
Proof.
  apply (shouldRotateEntry_monotone (X := Sample.externals)
           (Sample.request 5 ["kubelet"]) Sample.workerNode Sample.allNode).
  - discriminate.
  - reflexivity.
  - reflexivity.
  - reflexivity.
  - vm_compute. reflexivity.
Defined.

(** ** Plan composer *)

Section ComposerFacts.

Context `{X : Externals}.

Variables (controlPlane : RKEControlPlane) (tokensSecret : Secret)
          (rotation : RotateCertificates) (entry : planEntry).

Lemma rotationContainsService_iff (service : string) :
  rotationContainsService (Some rotation) service = true
  <-> requestIncludesService rotation service.
Proof.
  unfold rotationContainsService, requestIncludesService.
  destruct (length (Services rotation) =? 0)%nat eqn:Hlen.
  - apply length_zero_nil in Hlen. split; auto.
  - rewrite existsb_exists. split.
    + intros [x [Hin Hx]]. apply String.eqb_eq in Hx. subst x.
      right. by apply list_elem_of_In.
    + intros [Hnil|Hin].
      * apply length_zero_nil in Hnil. congruence.
      * exists service. split; [by apply list_elem_of_In | apply String.eqb_refl].
Qed.

(** A worker-only entry: base plan generation is called with a blank
    join server, and one restart of the agent unit is appended. *)
Lemma rotateCertificatesPlan_worker (joinServer : string) (s : PState)
    (base : NodePlan) (config : gmap string ArgValue) (joined : string) (w' : World) :
  isOnlyWorker entry = true ->
  generatePlanWithConfigFiles (world s) controlPlane tokensSecret entry "" true
    = ((base, config, joined, None), w') ->
  rotateCertificatesPlan controlPlane tokensSecret rotation entry joinServer s
    = ((appendInstructions base
          [restartInstruction (GetRuntimeAgentUnit (KubernetesVersion (Spec controlPlane)))],
        joined, None),
       record w' (EvGenerate entry "" true None) s).
Proof.
  intros Hw Hgen.
  unfold rotateCertificatesPlan, bind, doGeneratePlanWithConfigFiles.
  rewrite Hw. cbn beta zeta iota. rewrite Hgen. cbn [fst snd].
  reflexivity.
Qed.

(** An entry that runs server components: the script file is added and
    the instruction groups are appended in this order. *)
Lemma rotateCertificatesPlan_server (joinServer : string) (s : PState)
    (base : NodePlan) (config : gmap string ArgValue) (joined : string) (w' : World) :
  isOnlyWorker entry = false ->
  generatePlanWithConfigFiles (world s) controlPlane tokensSecret entry joinServer true
    = ((base, config, joined, None), w') ->
  rotateCertificatesPlan controlPlane tokensSecret rotation entry joinServer s
    = (({| Files := Files base ++ [rotateScriptFile controlPlane];
           Instructions :=
             Instructions base ++
               rotateInstruction controlPlane rotation
               :: (if isControlPlane entry
                   then controllerManagerRemovals controlPlane rotation config
                        ++ schedulerRemovals controlPlane rotation config
                   else [])
               ++ policyRemoval controlPlane entry
               ++ [restartInstruction
                     (GetRuntimeServerUnit (KubernetesVersion (Spec controlPlane)))] |},
        joined, None),
       record w' (EvGenerate entry joinServer true None) s).
Proof.
  intros Hw Hgen.
  unfold rotateCertificatesPlan, bind, doGeneratePlanWithConfigFiles.
  rewrite Hw. cbv beta iota. rewrite Hgen. cbv beta iota delta [fst snd].
  unfold ret. f_equal. f_equal. f_equal.
  unfold controllerManagerRemovals, schedulerRemovals, policyRemoval,
    staticManifestRemoval, selfSigns, rotateInstruction, rotateScriptFile,
    rotateScriptPath, restartInstruction, removeInstruction.
  cbv beta iota zeta delta [fst snd].
  destruct (generateManifestRemovalInstruction
                   (GetRuntime (KubernetesVersion (Spec controlPlane))) entry) as [gen instr].
  generalize (getArgValue (config !! KubeControllerManagerArg) CertDirArgument "=")
    (getArgValue (config !! KubeControllerManagerArg) TLSCertFileArgument "=")
    (getArgValue (config !! KubeSchedulerArg) CertDirArgument "=")
    (getArgValue (config !! KubeSchedulerArg) TLSCertFileArgument "=").
  intros kd kt sd st.
  generalize (rotationContainsService (Some rotation) "controller-manager")
    (rotationContainsService (Some rotation) "scheduler")
    (String.eqb (GetRuntime (KubernetesVersion (Spec controlPlane))) RuntimeRKE2)
    (isControlPlane entry).
  intros rk rs rke cp.
  generalize (String.eqb kd "") (String.eqb kt "") (String.eqb sd "") (String.eqb st "").
  intros b1 b2 b3 b4.
  assert (Hargs : forall (l : list string) (a : list string),
            (if (0 <? length l)%nat
             then fold_left (fun (args : list string) service =>
                               (args ++ ["-s"; service])%list) l a
             else a)
            = fold_left (fun (args : list string) service =>
                           (args ++ ["-s"; service])%list) l a).
  { intros [|x l] a; reflexivity. }
  rewrite Hargs. clear Hargs.
  generalize (fold_left (fun (args : list string) service =>
                           (args ++ ["-s"; service])%list) (Services rotation)
        ["-xe";
   "/var/lib/rancher/" +:+
   GetRuntime (KubernetesVersion (Spec controlPlane)) +:+
   "/rancher_v2prov_certificate_rotation/bin/rotate.sh";
   GetRuntime (KubernetesVersion (Spec controlPlane));
   strconv.FormatInt10 (Generation rotation)]).
  intros args.
  destruct rke; cbv beta iota.
  all: destruct cp; cbv beta iota.
  all: destruct gen; cbv beta iota.
  all: try destruct rk; cbv beta iota.
  all: try destruct rs; cbv beta iota.
  all: try destruct b1; cbv beta iota delta [andb negb].
  all: try destruct b2; cbv beta iota delta [andb negb].
  all: try destruct b3; cbv beta iota delta [andb negb].
  all: try destruct b4; cbv beta iota delta [andb negb].
  all: unfold appendInstructions, appendFile; cbn [Files Instructions]. 
  all: rewrite <- ?app_assoc. 
  all: reflexivity.
Qed.
End ComposerFacts.

(** C3. For a worker-only entry the composed plan holds exactly one
    instruction, the restart of the agent unit, and no file beyond the
    ones of the base plan (the rotation script is not embedded); base
    plan generation is called with a blank join server whatever the
    caller passed, and the address handed back is the one generation
    resolved from it, blank when generation returns the address it was
    given.  The base plan carries configuration files only. *)
Theorem rotateCertificatesPlan_worker_only `{X : Externals}
    (controlPlane : RKEControlPlane) (tokensSecret : Secret)
    (rotation : RotateCertificates) (entry : planEntry) (joinServer : string)
    (s : PState) (base : NodePlan) (config : gmap string ArgValue)
    (joined : string) (w' : World) :
  isOnlyWorker entry = true ->
  generatePlanWithConfigFiles (world s) controlPlane tokensSecret entry "" true
    = ((base, config, joined, None), w') ->
  Instructions base = [] ->
  exists rotatePlan,
    rotateCertificatesPlan controlPlane tokensSecret rotation entry joinServer s
      = ((rotatePlan, joined, None), record w' (EvGenerate entry "" true None) s)
    /\ Instructions rotatePlan
       = [ {| Name := "restart";
              Command := "systemctl";
              Args := ["restart";
                       GetRuntimeAgentUnit (KubernetesVersion (Spec controlPlane))] |} ]
    /\ Files rotatePlan = Files base
    /\ ((forall js,
           snd (fst (fst (generatePlanWithConfigFiles (world s) controlPlane
                            tokensSecret entry js true))) = js)
        -> joined = "").
Proof.
  intros Hw Hgen Hbase.
  eexists. split.
  - exact (rotateCertificatesPlan_worker controlPlane tokensSecret rotation entry
             joinServer s base config joined w' Hw Hgen).
  - cbn [appendInstructions Instructions Files]. rewrite Hbase.
    repeat split.
    intros Hecho. specialize (Hecho ""). by rewrite Hgen in Hecho.
Qed.

Lemma rotateCertificatesPlan_worker_only_witness :
  exists rotatePlan,
    rotateCertificatesPlan (X := Sample.externals)
      (Sample.cluster Sample.rke2 (Some (Sample.request 5 [])) true 4) tt
      (Sample.request 5 []) Sample.workerNode "https://etcd-0:9345"
      (Sample.start Sample.healthy)
    = ((rotatePlan, "", None),
       record (X := Sample.externals) Sample.healthy
         (EvGenerate (X := Sample.externals) Sample.workerNode "" true None)
         (Sample.start Sample.healthy))
    /\ Instructions rotatePlan
       = [ {| Name := "restart"; Command := "systemctl";
              Args := ["restart"; "rke2-agent"] |} ].
Proof.
  destruct (rotateCertificatesPlan_worker_only (X := Sample.externals)
              (Sample.cluster Sample.rke2 (Some (Sample.request 5 [])) true 4) tt
              (Sample.request 5 []) Sample.workerNode "https://etcd-0:9345"
              (Sample.start Sample.healthy)
              {| Files := [ {| Content := "server: ";
                               Path := "/etc/rancher/config.yaml" |} ];
                 Instructions := [] |}
              Sample.selfSigned "" Sample.healthy)
    as [rotatePlan (Hrun & Hinstr & _ & _)].
  - reflexivity.
  - reflexivity.
  - reflexivity.
  - exists rotatePlan. split; [exact Hrun | exact Hinstr].
Defined.

Section RemovalFacts.

Context `{X : Externals}.

Lemma staticManifestRemoval_rm (controlPlane : RKEControlPlane) (what path : string)
    (d : OneTimeInstruction) :
  d ∈ staticManifestRemoval controlPlane what path -> Command d = "rm".
Proof.
  unfold staticManifestRemoval.
  destruct (String.eqb _ _); set_solver.
Qed.

Lemma controllerManagerRemovals_rm (controlPlane : RKEControlPlane)
    (rotation : RotateCertificates) (config : gmap string ArgValue)
    (d : OneTimeInstruction) :
  d ∈ controllerManagerRemovals controlPlane rotation config -> Command d = "rm".
Proof.
  unfold controllerManagerRemovals.
  destruct (_ && _); [|set_solver].
  cbv zeta. cbn [app]. rewrite !elem_of_cons. intros [->|[->|Hd]]; [done|done|].
  eapply staticManifestRemoval_rm, Hd.
Qed.

Lemma schedulerRemovals_rm (controlPlane : RKEControlPlane)
    (rotation : RotateCertificates) (config : gmap string ArgValue)
    (d : OneTimeInstruction) :
  d ∈ schedulerRemovals controlPlane rotation config -> Command d = "rm".
Proof.
  unfold schedulerRemovals.
  destruct (_ && _); [|set_solver].
  cbv zeta. cbn [app]. rewrite !elem_of_cons. intros [->|[->|Hd]]; [done|done|].
  eapply staticManifestRemoval_rm, Hd.
Qed.

End RemovalFacts.

Section FileNameFacts.

(** Appending to the same prefix is one-to-one. *)
Lemma append_inv_head (a x y : string) : a +:+ x = a +:+ y -> x = y.
Proof.
  induction a as [|c a IH]; cbn; intros Heq; [done|].
  inversion Heq. auto.
Qed.

(** On a name made of a stem without a dot and the extension [.crt],
    [ReplaceAll name ".crt" ".key"] swaps the extension and leaves the
    stem alone. *)
Lemma ReplaceAll_crt_extension (stem : string) :
  "."%char ∉ list_ascii_of_string stem ->
  strings.ReplaceAll (stem +:+ ".crt") ".crt" ".key" = stem +:+ ".key".
Proof.
  unfold strings.ReplaceAll.
  induction stem as [|c stem IH]; intros Hdot.
  - reflexivity.
  - cbn [list_ascii_of_string] in Hdot.
    apply not_elem_of_cons in Hdot as [Hc Hrest].
    change (String c stem +:+ ".crt") with (String c (stem +:+ ".crt")).
    change (String c stem +:+ ".key") with (String c (stem +:+ ".key")).
    cbn [strings.replaceFrom strings.HasPrefix].
    apply Ascii.eqb_neq in Hc. rewrite Hc. cbn [andb]. f_equal. by apply IH.
Qed.

(** The certificate path and the key path under one directory differ. *)
Lemma crt_key_paths_differ (certDir stem : string) :
  sprintf_slash certDir (stem +:+ ".crt") <> sprintf_slash certDir (stem +:+ ".key").
Proof.
  unfold sprintf_slash. intros Heq.
  apply append_inv_head in Heq. apply (append_inv_head "/") in Heq.
  apply append_inv_head in Heq. discriminate.
Qed.

End FileNameFacts.

(** C4. For a control-plane entry whose request includes
    [controller-manager] (named, or no service named at all): when the
    rendered arguments give a certificate directory and no TLS
    certificate file, the instructions appended for the service start
    with the deletion of its certificate file and of its key file.  With
    the certificate named [<stem>.crt], the stem free of dots, the two
    instructions delete [<cert-dir>/<stem>.crt] and
    [<cert-dir>/<stem>.key], two different paths.  When a TLS
    certificate file is configured, nothing is appended for the
    service. *)
Theorem rotateCertificatesPlan_controller_manager `{X : Externals}
    (controlPlane : RKEControlPlane) (tokensSecret : Secret)
    (rotation : RotateCertificates) (entry : planEntry) (joinServer : string)
    (s : PState) (base : NodePlan) (config : gmap string ArgValue)
    (joined : string) (w' : World) :
  isControlPlane entry = true ->
  isOnlyWorker entry = false ->
  requestIncludesService rotation "controller-manager" ->
  generatePlanWithConfigFiles (world s) controlPlane tokensSecret entry joinServer true
    = ((base, config, joined, None), w') ->
  let certDir := getArgValue (config !! KubeControllerManagerArg) CertDirArgument "=" in
  let tlsCertFile := getArgValue (config !! KubeControllerManagerArg) TLSCertFileArgument "=" in
  exists rotatePlan removals,
    rotateCertificatesPlan controlPlane tokensSecret rotation entry joinServer s
      = ((rotatePlan, joined, None), record w' (EvGenerate entry joinServer true None) s)
    /\ Instructions rotatePlan
       = (Instructions base
          ++ rotateInstruction controlPlane rotation
             :: removals
             ++ schedulerRemovals controlPlane rotation config
             ++ policyRemoval controlPlane entry
             ++ [restartInstruction
                   (GetRuntimeServerUnit (KubernetesVersion (Spec controlPlane)))])%list
    /\ (certDir <> "" -> tlsCertFile = "" ->
        forall stem,
          "."%char ∉ list_ascii_of_string stem ->
          DefaultKubeControllerManagerCert = stem +:+ ".crt" ->
          (exists manifest,
             removals
             = {| Name := "remove kube-controller-manager cert for regeneration";
                  Command := "rm";
                  Args := ["-f"; certDir +:+ "/" +:+ stem +:+ ".crt"] |}
               :: {| Name := "remove kube-controller-manager key for regeneration";
                     Command := "rm";
                     Args := ["-f"; certDir +:+ "/" +:+ stem +:+ ".key"] |}
               :: manifest)
          /\ certDir +:+ "/" +:+ stem +:+ ".crt" <> certDir +:+ "/" +:+ stem +:+ ".key")
    /\ (certDir <> "" -> tlsCertFile = "" ->
        exists manifest,
          removals
          = {| Name := "remove kube-controller-manager cert for regeneration";
               Command := "rm";
               Args := ["-f"; certDir +:+ "/" +:+ DefaultKubeControllerManagerCert] |}
            :: {| Name := "remove kube-controller-manager key for regeneration";
                  Command := "rm";
                  Args := ["-f";
                           certDir +:+ "/"
                             +:+ strings.ReplaceAll DefaultKubeControllerManagerCert
                                   ".crt" ".key"] |}
            :: manifest)
    /\ (tlsCertFile <> "" -> removals = []).
Proof.
  intros Hcp Hw Hreq Hgen certDir tlsCertFile.
  exists {| Files := Files base ++ [rotateScriptFile controlPlane];
            Instructions :=
              Instructions base ++
                rotateInstruction controlPlane rotation
                :: (if isControlPlane entry
                    then controllerManagerRemovals controlPlane rotation config
                         ++ schedulerRemovals controlPlane rotation config
                    else [])
                ++ policyRemoval controlPlane entry
                ++ [restartInstruction
                      (GetRuntimeServerUnit (KubernetesVersion (Spec controlPlane)))] |}.
  exists (controllerManagerRemovals controlPlane rotation config).
  assert (Hself : certDir <> "" -> tlsCertFile = "" ->
            exists manifest,
              controllerManagerRemovals controlPlane rotation config
              = {| Name := "remove kube-controller-manager cert for regeneration";
                   Command := "rm";
                   Args := ["-f"; certDir +:+ "/" +:+ DefaultKubeControllerManagerCert] |}
                :: {| Name := "remove kube-controller-manager key for regeneration";
                      Command := "rm";
                      Args := ["-f";
                               certDir +:+ "/"
                                 +:+ strings.ReplaceAll DefaultKubeControllerManagerCert
                                       ".crt" ".key"] |}
                :: manifest).
  { intros Hdir Htls. apply rotationContainsService_iff in Hreq.
    unfold controllerManagerRemovals, selfSigns. rewrite Hreq.
    fold certDir tlsCertFile. rewrite Htls.
    apply String.eqb_neq in Hdir. rewrite Hdir. cbn [negb andb app].
    eexists. reflexivity. }
  split; [|split; [|split; [|split]]].
  - exact (rotateCertificatesPlan_server controlPlane tokensSecret rotation entry
             joinServer s base config joined w' Hw Hgen).
  - cbn [Instructions]. rewrite Hcp. by rewrite <- !app_assoc.
  - intros Hdir Htls stem Hdot Hname. split.
    + destruct (Hself Hdir Htls) as [manifest Hrem]. exists manifest.
      rewrite Hrem, Hname. by rewrite ReplaceAll_crt_extension.
    + apply (crt_key_paths_differ certDir stem).
  - exact Hself.
  - intros Htls. unfold controllerManagerRemovals, selfSigns.
    fold tlsCertFile. apply String.eqb_neq in Htls. rewrite Htls.
    by rewrite !andb_false_r.
Qed.

Lemma rotateCertificatesPlan_controller_manager_witness :
  exists rotatePlan,
    fst (rotateCertificatesPlan (X := Sample.externals)
           (Sample.cluster Sample.rke2 (Some (Sample.request 5 ["controller-manager"])) true 4)
           tt (Sample.request 5 ["controller-manager"]) Sample.cpNode
           "https://etcd-0:9345" (Sample.start Sample.healthy))
    = (rotatePlan, "https://etcd-0:9345", None)
    /\ {| Name := "remove kube-controller-manager cert for regeneration";
          Command := "rm";
          Args := ["-f";
                   "/var/lib/rancher/rke2/server/tls/kube-controller-manager/kube-controller-manager.crt"] |}
       ∈ Instructions rotatePlan
    /\ {| Name := "remove kube-controller-manager key for regeneration";
          Command := "rm";
          Args := ["-f";
                   "/var/lib/rancher/rke2/server/tls/kube-controller-manager/kube-controller-manager.key"] |}
       ∈ Instructions rotatePlan.
Proof.
  destruct (rotateCertificatesPlan_controller_manager (X := Sample.externals)
              (Sample.cluster Sample.rke2 (Some (Sample.request 5 ["controller-manager"])) true 4)
              tt (Sample.request 5 ["controller-manager"]) Sample.cpNode
              "https://etcd-0:9345" (Sample.start Sample.healthy)
              {| Files := [ {| Content := "server: https://etcd-0:9345";
                               Path := "/etc/rancher/config.yaml" |} ];
                 Instructions := [] |}
              Sample.selfSigned "https://etcd-0:9345" Sample.healthy)
    as [rotatePlan [removals (Hrun & Hinstr & Hnamed & _ & _)]].
  - reflexivity.
  - reflexivity.
  - right. vm_compute. apply list_elem_of_here.
  - reflexivity.
  - exists rotatePlan. split; [by rewrite Hrun|].
    destruct (Hnamed ltac:(vm_compute; discriminate) ltac:(vm_compute; reflexivity)
                "kube-controller-manager"
                ltac:(apply (bool_decide_eq_false_1 _); vm_compute; reflexivity)
                eq_refl)
      as [[manifest Hrem] _].
    rewrite Hinstr, Hrem. split.
    + apply list_elem_of_further. vm_compute. apply list_elem_of_here.
    + do 2 apply list_elem_of_further. vm_compute. apply list_elem_of_here.
Defined.

(** C5 (what the code does). On a control-plane entry with [scheduler]
    requested, a scheduler certificate directory and no TLS certificate
    file, the two instructions appended for the scheduler both delete
    [<cert-dir>/kube-scheduler-arg]: the file name passed is
    [KubeSchedulerArg], the key under which the scheduler arguments are
    looked up, where the controller-manager branch passes
    [DefaultKubeControllerManagerCert].  The name holds no [.crt], so the
    key path is the same path again. *)
Theorem scheduler_removals_at_control_plane_node :
  Instructions
    (fst (fst (fst
       (rotateCertificatesPlan (X := Sample.externals)
          (Sample.cluster Sample.rke2 (Some (Sample.request 5 ["scheduler"])) true 4)
          tt (Sample.request 5 ["scheduler"]) Sample.cpNode
          "https://etcd-0:9345" (Sample.start Sample.healthy)))))
  = [ {| Name := "rotate certificates";
         Command := "sh";
         Args := ["-xe";
                  "/var/lib/rancher/rke2/rancher_v2prov_certificate_rotation/bin/rotate.sh";
                  "rke2"; "5"; "-s"; "scheduler"] |};
      {| Name := "remove kube-scheduler cert for regeneration";
         Command := "rm";
         Args := ["-f";
                  "/var/lib/rancher/rke2/server/tls/kube-scheduler/kube-scheduler-arg"] |};
      {| Name := "remove kube-scheduler key for regeneration";
         Command := "rm";
         Args := ["-f";
                  "/var/lib/rancher/rke2/server/tls/kube-scheduler/kube-scheduler-arg"] |};
      {| Name := "remove kube-scheduler static pod manifest";
         Command := "rm";
         Args := ["-f";
                  "/var/lib/rancher/rke2/agent/pod-manifests/kube-scheduler.yaml"] |};
      {| Name := "restart";
         Command := "systemctl";
         Args := ["restart"; "rke2-server"] |} ].
Proof. vm_compute. reflexivity. Qed.

(** Whatever the constants are, the scheduler branch names the file
    after the lookup key, and the two paths coincide as soon as that key
    holds no [.crt]. *)
Lemma schedulerRemovals_paths `{X : Externals} (controlPlane : RKEControlPlane)
    (rotation : RotateCertificates) (config : gmap string ArgValue) :
  requestIncludesService rotation "scheduler" ->
  selfSigns config KubeSchedulerArg = true ->
  let certDir := getArgValue (config !! KubeSchedulerArg) CertDirArgument "=" in
  exists manifest,
    schedulerRemovals controlPlane rotation config
    = {| Name := "remove kube-scheduler cert for regeneration";
         Command := "rm";
         Args := ["-f"; certDir +:+ "/" +:+ KubeSchedulerArg] |}
      :: {| Name := "remove kube-scheduler key for regeneration";
            Command := "rm";
            Args := ["-f";
                     certDir +:+ "/"
                       +:+ strings.ReplaceAll KubeSchedulerArg ".crt" ".key"] |}
      :: manifest.
Proof.
  intros Hreq Hself certDir. apply rotationContainsService_iff in Hreq.
  unfold schedulerRemovals. rewrite Hreq, Hself. cbn [andb app].
  eexists. reflexivity.
Qed.

(** C6. For an entry that is not worker-only, the appended instructions
    start with the run of the rotation script and end with the restart
    of the server unit; every [rm] instruction, hence every certificate
    deletion, lies strictly between the two. *)
Theorem rotateCertificatesPlan_order `{X : Externals}
    (controlPlane : RKEControlPlane) (tokensSecret : Secret)
    (rotation : RotateCertificates) (entry : planEntry) (joinServer : string)
    (s : PState) (base : NodePlan) (config : gmap string ArgValue)
    (joined : string) (w' : World) :
  isOnlyWorker entry = false ->
  generatePlanWithConfigFiles (world s) controlPlane tokensSecret entry joinServer true
    = ((base, config, joined, None), w') ->
  exists rotatePlan appended,
    rotateCertificatesPlan controlPlane tokensSecret rotation entry joinServer s
      = ((rotatePlan, joined, None), record w' (EvGenerate entry joinServer true None) s)
    /\ Instructions rotatePlan = (Instructions base ++ appended)%list
    /\ appended !! 0%nat = Some (rotateInstruction controlPlane rotation)
    /\ last appended
       = Some {| Name := "restart";
                 Command := "systemctl";
                 Args := ["restart";
                          GetRuntimeServerUnit (KubernetesVersion (Spec controlPlane))] |}
    /\ (forall (i : nat) (d : OneTimeInstruction),
          appended !! i = Some d -> Command d = "rm" ->
          (0 < i /\ i < length appended - 1)%nat)
    /\ (isControlPlane entry = true ->
        forall d,
          d ∈ (controllerManagerRemovals controlPlane rotation config
               ++ schedulerRemovals controlPlane rotation config)%list ->
          d ∈ appended /\ Command d = "rm").
Proof.
  intros Hw Hgen.
  set (middle :=
         ((if isControlPlane entry
           then controllerManagerRemovals controlPlane rotation config
                ++ schedulerRemovals controlPlane rotation config
           else [])
          ++ policyRemoval controlPlane entry)%list).
  set (restart := restartInstruction
                    (GetRuntimeServerUnit (KubernetesVersion (Spec controlPlane)))).
  exists {| Files := Files base ++ [rotateScriptFile controlPlane];
            Instructions :=
              Instructions base ++
                rotateInstruction controlPlane rotation :: middle ++ [restart] |}.
  exists (rotateInstruction controlPlane rotation :: middle ++ [restart])%list.
  split; [|split; [|split; [|split; [|split]]]].
  - rewrite (rotateCertificatesPlan_server controlPlane tokensSecret rotation entry
               joinServer s base config joined w' Hw Hgen).
    subst middle restart. by rewrite <- !app_assoc.
  - reflexivity.
  - reflexivity.
  - rewrite app_comm_cons. apply last_snoc.
  - intros i d Hi Hrm.
    assert (Hlen : length (rotateInstruction controlPlane rotation :: middle ++ [restart])
                   = S (S (length middle))).
    { cbn [length]. rewrite length_app. cbn [length]. lia. }
    rewrite Hlen.
    rewrite lookup_cons in Hi. destruct i as [|i].
    + inversion Hi; subst d. discriminate.
    + destruct (decide (i < length middle)%nat) as [Hlt|Hge]; [lia|].
      rewrite lookup_app_r in Hi by lia.
      destruct (i - length middle)%nat; cbn in Hi; [|done].
      inversion Hi; subst d. discriminate.
  - intros Hcp d Hd. split.
    + subst middle. rewrite Hcp. set_solver.
    + apply elem_of_app in Hd as [Hd|Hd].
      * eapply controllerManagerRemovals_rm, Hd.
      * eapply schedulerRemovals_rm, Hd.
Qed.

Lemma rotateCertificatesPlan_order_witness :
  exists rotatePlan appended,
    rotateCertificatesPlan (X := Sample.externals)
      (Sample.cluster Sample.rke2 (Some (Sample.request 5 [])) true 4) tt
      (Sample.request 5 []) Sample.cpNode "https://etcd-0:9345"
      (Sample.start Sample.healthy)
    = ((rotatePlan, "https://etcd-0:9345", None),
       record (X := Sample.externals) Sample.healthy
         (EvGenerate (X := Sample.externals) Sample.cpNode "https://etcd-0:9345" true None)
         (Sample.start Sample.healthy))
    /\ Instructions rotatePlan = appended
    /\ last appended
       = Some {| Name := "restart"; Command := "systemctl";
                 Args := ["restart"; "rke2-server"] |}.
Proof.
  destruct (rotateCertificatesPlan_order (X := Sample.externals)
              (Sample.cluster Sample.rke2 (Some (Sample.request 5 [])) true 4) tt
              (Sample.request 5 []) Sample.cpNode "https://etcd-0:9345"
              (Sample.start Sample.healthy)
              {| Files := [ {| Content := "server: https://etcd-0:9345";
                               Path := "/etc/rancher/config.yaml" |} ];
                 Instructions := [] |}
              Sample.selfSigned "https://etcd-0:9345" Sample.healthy)
    as [rotatePlan [appended (Hrun & Hinstr & _ & Hlast & _)]].
  - reflexivity.
  - reflexivity.
  - exists rotatePlan, appended. split; [exact Hrun|]. split; [exact Hinstr|].
    exact Hlast.
Defined.

(** ** Orchestrator *)

Section OrchestratorFacts.

Context `{X : Externals}.

Variables (controlPlane : RKEControlPlane) (status : RKEControlPlaneStatus)
          (tokensSecret : Secret) (clusterPlan : Plan).

Lemma bind_run {A B : Type} (m : M A) (k : A -> M B) (s s1 : PState) (a : A) :
  m s = (a, s1) -> bind m k s = k a s1.
Proof. intros Hm. unfold bind. by rewrite Hm. Qed.

Lemma doFindInitNode_run (s : PState) found joinServer initNode err (w : World) :
  findInitNode (world s) controlPlane clusterPlan
    = ((found, joinServer, initNode, err), w) ->
  doFindInitNode controlPlane clusterPlan s
    = ((found, joinServer, initNode, err), record w (EvFindInit found joinServer err) s).
Proof. intros Hcall. unfold doFindInitNode. by rewrite Hcall. Qed.

Lemma doAssignAndCheckPlan_run (s : PState) msg entry nodePlan joinedServer
    minWait maxWait err (w : World) :
  assignAndCheckPlan (world s) msg entry nodePlan joinedServer minWait maxWait
    = (err, w) ->
  doAssignAndCheckPlan msg entry nodePlan joinedServer minWait maxWait s
    = (err, record w (EvAssign msg entry nodePlan joinedServer minWait maxWait err) s).
Proof. intros Hcall. unfold doAssignAndCheckPlan. by rewrite Hcall. Qed.

Lemma doPauseCAPICluster_run (s : PState) paused err (w : World) :
  pauseCAPICluster (world s) controlPlane paused = (err, w) ->
  doPauseCAPICluster controlPlane paused s = (err, record w (EvPause paused err) s).
Proof. intros Hcall. unfold doPauseCAPICluster. by rewrite Hcall. Qed.

(** Composing a plan reaches the stores once, through base plan
    generation, and hands back the error of that call. *)
Lemma rotateCertificatesPlan_state (rotation : RotateCertificates)
    (node : planEntry) (joinServer : string) (s : PState) :
  exists nodePlan joinedServer err w1,
    rotateCertificatesPlan controlPlane tokensSecret rotation node joinServer s
    = ((nodePlan, joinedServer, err),
       record w1
         (EvGenerate node (if isOnlyWorker node then "" else joinServer) true err) s).
Proof.
  unfold rotateCertificatesPlan, bind, doGeneratePlanWithConfigFiles.
  cbv beta iota zeta. cbn [fst snd].
  destruct (generatePlanWithConfigFiles (world s) controlPlane tokensSecret node
              (if isOnlyWorker node then "" else joinServer) true)
    as [[[[base config] joined] err] w1].
  cbn [fst snd].
  destruct err as [e|]; [|destruct (isOnlyWorker node)];
    do 4 eexists; reflexivity.
Qed.

(** The loop leaves one of the traces of [LoopRun]. *)
Lemma rotateEntries_run (rotation : RotateCertificates) (joinServer : string)
    (nodes : list planEntry) :
  forall (s s' : PState) out,
    rotateEntries controlPlane status tokensSecret rotation joinServer nodes s
    = (out, s') ->
    exists evs,
      events s' = events s ++ evs
      /\ LoopRun status rotation joinServer nodes evs out.
Proof.
  induction nodes as [|node nodes IH]; intros s s' out Hrun.
  - inversion Hrun; subst. exists []. split; [by rewrite app_nil_r | constructor].
  - cbn [rotateEntries] in Hrun.
    destruct (shouldRotateEntry rotation node) eqn:Hrel; cbn [negb] in Hrun.
    + destruct (rotateCertificatesPlan_state rotation node joinServer s)
        as (nodePlan & joinedServer & err & w1 & Hplan).
      rewrite (bind_run _ _ _ _ _ Hplan) in Hrun. cbv beta iota in Hrun.
      destruct err as [e|].
      * inversion Hrun; subst. eexists. split; [reflexivity|]. by constructor.
      * match type of Hrun with
        | bind (doAssignAndCheckPlan ?msg ?n ?np ?js ?a ?b) _ ?s1 = _ =>
            destruct (assignAndCheckPlan (world s1) msg n np js a b)
              as [assignErr w2] eqn:Hassign;
            rewrite (bind_run _ _ _ _ _ (doAssignAndCheckPlan_run s1 _ _ _ _ _ _ _ _ Hassign))
              in Hrun
        end.
        destruct assignErr as [e|].
        -- match type of Hrun with
           | bind (doPauseCAPICluster _ ?b) _ ?s2 = _ =>
               destruct (pauseCAPICluster (world s2) controlPlane b)
                 as [pauseErr w3] eqn:Hpause;
               rewrite (bind_run _ _ _ _ _ (doPauseCAPICluster_run s2 _ _ _ Hpause))
                 in Hrun
           end.
           exists [EvGenerate node (if isOnlyWorker node then "" else joinServer) true None;
                   EvAssign (sprintf_rotation (machineName node)) node nodePlan
                     joinedServer 0 0 (Some e);
                   EvPause true pauseErr].
           destruct pauseErr as [pe|]; inversion Hrun; subst; cbn [events record];
             (split; [rewrite <- ?app_assoc; reflexivity|]).
           ++ exact (LoopDispatchError status rotation joinServer node nodes
                       nodePlan joinedServer e (Some pe) Hrel).
           ++ exact (LoopDispatchError status rotation joinServer node nodes
                       nodePlan joinedServer e None Hrel).
        -- apply IH in Hrun as (evs & Hevs & Hloop).
           exists (EvGenerate node (if isOnlyWorker node then "" else joinServer) true None
                   :: EvAssign (sprintf_rotation (machineName node)) node nodePlan
                        joinedServer 0 0 None
                   :: evs).
           split.
           ++ rewrite Hevs. cbn [events record]. rewrite <- ?app_assoc. reflexivity.
           ++ by constructor.
    + apply IH in Hrun as (evs & Hevs & Hloop).
      exists evs. split; [done|]. by constructor.
Qed.

(** A call of [rotateCertificates] leaves one of the traces of
    [PassRun]. *)
Lemma rotateCertificates_run (s s' : PState)
    (result : RKEControlPlaneStatus * option error) :
  rotateCertificates controlPlane status tokensSecret clusterPlan s = (result, s') ->
  exists evs,
    events s' = events s ++ evs
    /\ PassRun controlPlane status clusterPlan evs result.
Proof.
  unfold rotateCertificates. intros Hrun.
  destruct (shouldRotate controlPlane) eqn:Hdue; cbn [negb] in Hrun.
  2:{ inversion Hrun; subst. exists []. split; [by rewrite app_nil_r | by constructor]. }
  destruct (findInitNode (world s) controlPlane clusterPlan)
    as [[[[found joinServer] initNode] err] w1] eqn:Hinit.
  rewrite (bind_run _ _ _ _ _ (doFindInitNode_run s _ _ _ _ _ Hinit)) in Hrun.
  cbv beta iota in Hrun.
  destruct err as [e|].
  { inversion Hrun; subst. eexists. split; [reflexivity | by constructor]. }
  destruct (negb found || String.eqb joinServer "") eqn:Hnone.
  { inversion Hrun; subst. eexists. split; [reflexivity | by constructor]. }
  apply orb_false_elim in Hnone as [Hfound Hjoin].
  apply negb_false_iff in Hfound. subst found.
  destruct (Spec_RotateCertificates (Spec controlPlane)) as [rotation|] eqn:Hrot.
  2:{ unfold shouldRotate in Hdue. by rewrite Hrot in Hdue. }
  match type of Hrun with
  | bind (rotateEntries _ _ _ _ _ ?l) _ ?s1 = _ =>
      destruct (rotateEntries controlPlane status tokensSecret rotation joinServer l s1)
        as [out s2] eqn:Hloop;
      rewrite (bind_run _ _ _ _ _ Hloop) in Hrun
  end.
  apply rotateEntries_run in Hloop as (evs & Hevs & Hloop).
  cbn [events record] in Hevs.
  destruct out as [returned|].
  - inversion Hrun; subst.
    exists (EvFindInit true joinServer None :: evs). split.
    + rewrite Hevs. rewrite <- ?app_assoc. reflexivity.
    + by econstructor.
  - destruct (pauseCAPICluster (world s2) controlPlane false)
      as [pauseErr w3] eqn:Hpause.
    rewrite (bind_run _ _ _ _ _ (doPauseCAPICluster_run s2 _ _ _ Hpause)) in Hrun.
    exists (EvFindInit true joinServer None :: evs ++ [EvPause false pauseErr]).
    destruct pauseErr; inversion Hrun; subst; cbn [events record]; rewrite Hevs;
      (split; [rewrite <- ?app_assoc; reflexivity | by econstructor]).
Qed.

End OrchestratorFacts.

Section TraceFacts.

Context `{X : Externals}.

Variables (controlPlane : RKEControlPlane) (status : RKEControlPlaneStatus)
          (clusterPlan : Plan).

Lemma added_app (s s' : PState) (evs : list Event) :
  events s' = events s ++ evs -> added s s' = evs.
Proof. intros Hevs. unfold added. rewrite Hevs. apply drop_app_length. Qed.

(** A return from inside the loop leaves the status as it was. *)
Lemma LoopRun_status rotation joinServer nodes evs returned :
  LoopRun status rotation joinServer nodes evs (Some returned) ->
  fst returned = status.
Proof.
  remember (Some returned) as out eqn:Hout. intros Hrun.
  induction Hrun; try discriminate; auto; by inversion Hout.
Qed.

(** A return from inside the loop comes with a failed call that is
    not a pause. *)
Lemma LoopRun_returned_failure rotation joinServer nodes evs returned :
  LoopRun status rotation joinServer nodes evs (Some returned) ->
  exists ev, ev ∈ evs /\ isPause ev = false /\ eventOk ev = false.
Proof.
  remember (Some returned) as out eqn:Hout. intros Hrun.
  induction Hrun; try discriminate.
  - auto.
  - eexists. split; [apply list_elem_of_here | by split].
  - eexists. split; [apply list_elem_of_further, list_elem_of_here | by split].
  - destruct (IHHrun Hout) as (ev & Hin & Hev).
    exists ev. split; [|done]. by do 2 apply list_elem_of_further.
Qed.

(** A loop that runs to its end made only successful calls, and
    dispatched a plan to every entry the filter keeps, in order. *)
Lemma LoopRun_end rotation joinServer nodes evs :
  LoopRun status rotation joinServer nodes evs None ->
  forallb eventOk evs = true
  /\ dispatched evs = List.filter (shouldRotateEntry rotation) nodes.
Proof.
  remember None as out eqn:Hout. intros Hrun.
  induction Hrun; try discriminate.
  - done.
  - destruct (IHHrun Hout) as [Hok Hdisp]. split; [done|].
    cbn [List.filter]. by rewrite H.
  - destruct (IHHrun Hout) as [Hok Hdisp]. split.
    + cbn [forallb eventOk]. by rewrite Hok.
    + cbn [List.filter dispatched flat_map app]. rewrite H. f_equal. exact Hdisp.
Qed.

(** A failed dispatch is followed by the pause call and by nothing
    else, and decides what the loop returns. *)
Lemma LoopRun_failed_dispatch rotation joinServer nodes evs out :
  LoopRun status rotation joinServer nodes evs out ->
  forall pre post msg entry nodePlan joinedServer minWait maxWait e,
    evs = pre ++ EvAssign msg entry nodePlan joinedServer minWait maxWait (Some e) :: post ->
    exists pauseErr,
      post = [EvPause true pauseErr]
      /\ out = Some (status, Some (afterPause pauseErr e)).
Proof.
  induction 1 as [|node nodes evs out Hrel Hrun IH|node nodes e0 Hrel
                 |node nodes np js e0 pauseErr Hrel
                 |node nodes np js evs out Hrel Hrun IH];
    intros pre post msg entry nodePlan joinedServer minWait maxWait e Heq.
  - by destruct pre.
  - eauto.
  - destruct pre as [|? [|? pre]]; inversion Heq.
  - destruct pre as [|? [|? [|? [|? pre]]]]; inversion Heq; subst.
    exists pauseErr. by split.
  - destruct pre as [|? [|? pre]]; inversion Heq; subst.
    eapply IH. reflexivity.
Qed.

Lemma PassRun_failed_dispatch evs result :
  PassRun controlPlane status clusterPlan evs result ->
  forall pre post msg entry nodePlan joinedServer minWait maxWait e,
    evs = pre ++ EvAssign msg entry nodePlan joinedServer minWait maxWait (Some e) :: post ->
    exists pauseErr,
      post = [EvPause true pauseErr]
      /\ result = (status, Some (afterPause pauseErr e)).
Proof.
  intros Hrun pre post msg entry nodePlan joinedServer minWait maxWait e Heq.
  assert (Hin : EvAssign msg entry nodePlan joinedServer minWait maxWait (Some e) ∈ evs).
  { rewrite Heq. set_solver. }
  destruct Hrun as [Hdue|found js e0 Hdue|found js Hdue Hnone
                   |rotation js evs returned Hdue Hrot Hjs Hloop
                   |rotation js evs e0 Hdue Hrot Hjs Hloop
                   |rotation js evs Hdue Hrot Hjs Hloop].
  - by destruct pre.
  - destruct pre as [|? [|? pre]]; inversion Heq.
  - destruct pre as [|? [|? pre]]; inversion Heq.
  - destruct pre as [|? pre]; inversion Heq; subst.
    destruct (LoopRun_failed_dispatch _ _ _ _ _ Hloop _ _ _ _ _ _ _ _ _ eq_refl)
      as (pauseErr & Hpost & Hout).
    exists pauseErr. split; [done|]. by inversion Hout.
  - apply LoopRun_end in Hloop as [Hok _].
    rewrite elem_of_cons, elem_of_app, list_elem_of_singleton in Hin.
    destruct Hin as [Hin|[Hin|Hin]]; try discriminate.
    rewrite forallb_forall in Hok. apply list_elem_of_In, Hok in Hin. discriminate.
  - apply LoopRun_end in Hloop as [Hok _].
    rewrite elem_of_cons, elem_of_app, list_elem_of_singleton in Hin.
    destruct Hin as [Hin|[Hin|Hin]]; try discriminate.
    rewrite forallb_forall in Hok. apply list_elem_of_In, Hok in Hin. discriminate.
Qed.

Lemma forallb_snoc {A : Type} (f : A -> bool) (l : list A) (x : A) :
  forallb f (l ++ [x]) = forallb f l && f x.
Proof. rewrite forallb_app. cbn. by rewrite andb_true_r. Qed.

End TraceFacts.

Section ReplayFacts.

Context `{X : Externals}.

Variables (controlPlane : RKEControlPlane) (status : RKEControlPlaneStatus)
          (tokensSecret : Secret) (clusterPlan : Plan).

Notation Replay := (Replay controlPlane tokensSecret clusterPlan).
Notation Faithful := (Faithful controlPlane tokensSecret clusterPlan).

Lemma Replay_app (w w1 w2 : World) (l1 l2 : list Event) :
  Replay w l1 w1 -> Replay w1 l2 w2 -> Replay w (l1 ++ l2) w2.
Proof.
  induction 1; cbn [app]; intros Hrest; [done|..]; econstructor; eauto.
Qed.

Lemma Replay_app_inv (l1 l2 : list Event) :
  forall w w2 : World,
    Replay w (l1 ++ l2) w2 -> exists w1, Replay w l1 w1 /\ Replay w1 l2 w2.
Proof.
  induction l1 as [|ev l1 IH]; intros w w2 Hrun.
  - exists w. split; [constructor|done].
  - cbn [app] in Hrun. inversion Hrun; subst;
      match goal with
      | H : Replay _ (l1 ++ l2) _ |- _ => apply IH in H as (wm & Hl & Hr)
      end;
      exists wm; (split; [econstructor; eauto | done]).
Qed.

Lemma Faithful_ret {A : Type} (a : A) : Faithful (ret a).
Proof.
  intros s s' a' Hrun. inversion Hrun; subst.
  exists []. split; [by rewrite app_nil_r | constructor].
Qed.

Lemma Faithful_bind {A B : Type} (m : M A) (k : A -> M B) :
  Faithful m -> (forall a, Faithful (k a)) -> Faithful (bind m k).
Proof.
  intros Hm Hk s s' b Hrun. unfold bind in Hrun.
  destruct (m s) as [a s1] eqn:Hms. cbn [fst snd] in Hrun.
  apply Hm in Hms as (evs1 & Hev1 & Hre1).
  apply Hk in Hrun as (evs2 & Hev2 & Hre2).
  exists (evs1 ++ evs2). split.
  - rewrite Hev2, Hev1. by rewrite <- app_assoc.
  - eapply Replay_app; eauto.
Qed.

Lemma Faithful_doFindInitNode : Faithful (doFindInitNode controlPlane clusterPlan).
Proof.
  intros s s' a Hrun. unfold doFindInitNode in Hrun.
  destruct (findInitNode (world s) controlPlane clusterPlan)
    as [[[[found joinServer] initNode] err] w1] eqn:Hcall.
  inversion Hrun; subst. eexists. split; [reflexivity|].
  econstructor; [exact Hcall | constructor].
Qed.

Lemma Faithful_doGeneratePlanWithConfigFiles entry joinServer renderS3 :
  Faithful (doGeneratePlanWithConfigFiles controlPlane tokensSecret entry joinServer renderS3).
Proof.
  intros s s' a Hrun. unfold doGeneratePlanWithConfigFiles in Hrun.
  destruct (generatePlanWithConfigFiles (world s) controlPlane tokensSecret entry
              joinServer renderS3)
    as [[[[nodePlan config] joinedServer] err] w1] eqn:Hcall.
  inversion Hrun; subst. eexists. split; [reflexivity|].
  econstructor; [exact Hcall | constructor].
Qed.

Lemma Faithful_doAssignAndCheckPlan msg entry nodePlan joinedServer minWait maxWait :
  Faithful (doAssignAndCheckPlan msg entry nodePlan joinedServer minWait maxWait).
Proof.
  intros s s' a Hrun. unfold doAssignAndCheckPlan in Hrun.
  destruct (assignAndCheckPlan (world s) msg entry nodePlan joinedServer minWait maxWait)
    as [err w1] eqn:Hcall.
  inversion Hrun; subst. eexists. split; [reflexivity|].
  econstructor; [exact Hcall | constructor].
Qed.

Lemma Faithful_doPauseCAPICluster paused :
  Faithful (doPauseCAPICluster controlPlane paused).
Proof.
  intros s s' a Hrun. unfold doPauseCAPICluster in Hrun.
  destruct (pauseCAPICluster (world s) controlPlane paused) as [err w1] eqn:Hcall.
  inversion Hrun; subst. eexists. split; [reflexivity|].
  econstructor; [exact Hcall | constructor].
Qed.

Lemma Faithful_rotateCertificatesPlan rotation entry joinServer :
  Faithful (rotateCertificatesPlan controlPlane tokensSecret rotation entry joinServer).
Proof.
  unfold rotateCertificatesPlan.
  apply Faithful_bind; [apply Faithful_doGeneratePlanWithConfigFiles|].
  intros [[[rotatePlan config] joinedServer] [e|]]; cbv beta iota.
  - apply Faithful_ret.
  - destruct (isOnlyWorker entry); apply Faithful_ret.
Qed.

Lemma Faithful_rotateEntries rotation joinServer nodes :
  Faithful (rotateEntries controlPlane status tokensSecret rotation joinServer nodes).
Proof.
  induction nodes as [|node nodes IH]; cbn [rotateEntries].
  - apply Faithful_ret.
  - destruct (shouldRotateEntry rotation node); cbn [negb]; [|exact IH].
    apply Faithful_bind; [apply Faithful_rotateCertificatesPlan|].
    intros [[rotatePlan joinedServer] [e|]]; cbv beta iota; [apply Faithful_ret|].
    apply Faithful_bind; [apply Faithful_doAssignAndCheckPlan|].
    intros [e|]; [|exact IH].
    apply Faithful_bind; [apply Faithful_doPauseCAPICluster|].
    intros [pe|]; apply Faithful_ret.
Qed.

(** The events a pass records are the calls it made, and the world it
    ends in is the one its last call left. *)
Lemma Faithful_rotateCertificates :
  Faithful (rotateCertificates controlPlane status tokensSecret clusterPlan).
Proof.
  unfold rotateCertificates.
  destruct (shouldRotate controlPlane); cbn [negb]; [|apply Faithful_ret].
  apply Faithful_bind; [apply Faithful_doFindInitNode|].
  intros [[[found joinServer] initNode] [e|]]; cbv beta iota; [apply Faithful_ret|].
  destruct (negb found || String.eqb joinServer ""); [apply Faithful_ret|].
  destruct (Spec_RotateCertificates (Spec controlPlane)) as [rotation|];
    [|apply Faithful_ret].
  apply Faithful_bind; [apply Faithful_rotateEntries|].
  intros [returned|]; [apply Faithful_ret|].
  apply Faithful_bind; [apply Faithful_doPauseCAPICluster|].
  intros [e|]; apply Faithful_ret.
Qed.

End ReplayFacts.

(** C7. When the dispatch of a plan to some entry fails, the pause
    signal is invoked with [true] right after it, on the world that
    dispatch left, and nothing else is called: no later entry gets a
    plan, and the world the pass ends in is the one the pause call
    left.  The caller receives the dispatch error, unless the pause
    call failed too, in which case it receives the pause error.  The
    status is returned as it was. *)
Theorem rotateCertificates_dispatch_failure `{X : Externals}
    (controlPlane : RKEControlPlane) (status : RKEControlPlaneStatus)
    (tokensSecret : Secret) (clusterPlan : Plan) (s s' : PState)
    (status' : RKEControlPlaneStatus) (err : option error)
    (pre post : list Event) (msg : string) (entry : planEntry) (nodePlan : NodePlan)
    (joinedServer : string) (minWait maxWait : Z) (e : error) :
  rotateCertificates controlPlane status tokensSecret clusterPlan s
    = ((status', err), s') ->
  added s s'
    = pre ++ EvAssign msg entry nodePlan joinedServer minWait maxWait (Some e) :: post ->
  exists (pauseErr : option error) (w0 w1 : World),
    Replay controlPlane tokensSecret clusterPlan (world s) pre w0
    /\ assignAndCheckPlan w0 msg entry nodePlan joinedServer minWait maxWait
       = (Some e, w1)
    /\ pauseCAPICluster w1 controlPlane true = (pauseErr, world s')
    /\ post = [EvPause true pauseErr]
    /\ err = Some (match pauseErr with
                   | Some pe => pe
                   | None => e
                   end)
    /\ status' = status.
Proof.
  intros Hrun Hadded.
  pose proof (Faithful_rotateCertificates controlPlane status tokensSecret clusterPlan
                s s' _ Hrun) as (calls & Hcalls & Hreplay).
  apply rotateCertificates_run in Hrun as (evs & Hevs & Hpass).
  rewrite (added_app _ _ _ Hevs) in Hadded.
  assert (calls = evs) by (rewrite Hevs in Hcalls; by apply app_inv_head in Hcalls).
  subst calls.
  destruct (PassRun_failed_dispatch _ _ _ _ _ Hpass _ _ _ _ _ _ _ _ _ Hadded)
    as (pauseErr & Hpost & Hresult).
  subst evs post.
  apply Replay_app_inv in Hreplay as (w0 & Hpre & Htail).
  inversion Htail as [| | |? w1 ? ? ? ? ? ? ? ? ? Hassign Hrest|]; subst.
  inversion Hrest as [| | | |? w2 ? ? ? ? Hpause Hend]; subst.
  inversion Hend; subst.
  exists pauseErr, w0, w1. inversion Hresult; subst.
  repeat split; auto.
Qed.

Lemma rotateCertificates_dispatch_failure_witness :
  fst (rotateCertificates (X := Sample.externals)
         (Sample.cluster Sample.rke2 (Some (Sample.request 5 [])) true 4)
         {| Initialized := true; CertificateRotationGeneration := 4 |}
         tt Sample.nodes (Sample.start Sample.cpFailsNoPause))
  = ({| Initialized := true; CertificateRotationGeneration := 4 |},
     Some (errExternal "pause failed"))
  /\ Sample.pause Sample.cpFailsNoPause
       (Sample.cluster Sample.rke2 (Some (Sample.request 5 [])) true 4) true
     = (Some (errExternal "pause failed"), Sample.cpFailsNoPause).
Proof.
  pose (r := rotateCertificates (X := Sample.externals)
         (Sample.cluster Sample.rke2 (Some (Sample.request 5 [])) true 4)
         {| Initialized := true; CertificateRotationGeneration := 4 |}
         tt Sample.nodes (Sample.start Sample.cpFailsNoPause)).
  destruct (rotateCertificates_dispatch_failure (X := Sample.externals)
              (Sample.cluster Sample.rke2 (Some (Sample.request 5 [])) true 4)
              {| Initialized := true; CertificateRotationGeneration := 4 |}
              tt Sample.nodes (Sample.start Sample.cpFailsNoPause) (snd r)
              (fst (fst r)) (snd (fst r))
              ltac:(let t := eval vm_compute in (take 4 (events (snd r))) in exact t)
              [EvPause (X := Sample.externals) true (Some (errExternal "pause failed"))]
              "[cp-0] certificate rotation" Sample.cpNode
              ltac:(let t := eval vm_compute in
                      (fst (fst (fst (rotateCertificatesPlan (X := Sample.externals)
                         (Sample.cluster Sample.rke2 (Some (Sample.request 5 [])) true 4) tt
                         (Sample.request 5 []) Sample.cpNode "https://etcd-0:9345"
                         (Sample.start Sample.cpFailsNoPause))))) in exact t)
              "https://etcd-0:9345" 0 0 (errExternal "plan failed"))
    as (pauseErr & w0 & w1 & _ & _ & Hpause & Hpost & Herr & Hstatus).
  - vm_compute. reflexivity.
  - vm_compute. reflexivity.
  - inversion Hpost; subst pauseErr. split.
    + change (fst r = ({| Initialized := true; CertificateRotationGeneration := 4 |},
                        Some (errExternal "pause failed"))).
      destruct r as [[st er] sf]. cbn [fst snd] in *. by subst.
    + reflexivity.
Defined.

Section PassFacts.

Context `{X : Externals}.

Variables (controlPlane : RKEControlPlane) (status : RKEControlPlaneStatus)
          (clusterPlan : Plan).

(** The return paths, sorted by what the calls did: either some call
    other than the final unpause failed (or rotation was not due) and
    the status is untouched, or every entry the filter keeps got its
    plan and the pass ends with the unpause call. *)
Lemma PassRun_cases evs result :
  PassRun controlPlane status clusterPlan evs result ->
  (fst result = status
   /\ (shouldRotate controlPlane = false
       \/ exists ev, ev ∈ evs /\ isPause ev = false /\ eventOk ev = false))
  \/ (exists rotation calls pauseErr,
        shouldRotate controlPlane = true
        /\ Spec_RotateCertificates (Spec controlPlane) = Some rotation
        /\ evs = calls ++ [EvPause false pauseErr]
        /\ forallb eventOk calls = true
        /\ dispatched calls = eligible rotation clusterPlan
        /\ result
           = match pauseErr with
             | Some _ => (status, Some (errWaiting "unpausing CAPI cluster"))
             | None =>
                 (setCertificateRotationGeneration status (Generation rotation),
                  Some (errWaiting "certificate rotation done"))
             end).
Proof.
  intros [Hdue|found js e0 Hdue|found js Hdue Hnone
         |rotation js calls returned Hdue Hrot Hjs Hloop
         |rotation js calls e0 Hdue Hrot Hjs Hloop
         |rotation js calls Hdue Hrot Hjs Hloop].
  - left. auto.
  - left. split; [done|]. right. eexists. split; [apply list_elem_of_here|].
    split; [done|]. cbn. by rewrite andb_false_r.
  - left. split; [done|]. right. eexists. split; [apply list_elem_of_here|].
    split; [done|]. cbn. rewrite andb_true_r.
    destruct found; cbn in *; [by rewrite Hnone | done].
  - left. split; [by eapply LoopRun_status|]. right.
    destruct (LoopRun_returned_failure _ _ _ _ _ _ Hloop) as (ev & Hin & Hev).
    exists ev. split; [by apply list_elem_of_further | done].
  - right. apply LoopRun_end in Hloop as [Hok Hdisp].
    exists rotation, (EvFindInit true js None :: calls), (Some e0).
    repeat split; try done.
    cbn [forallb eventOk]. rewrite Hjs, Hok. by rewrite bool_decide_eq_true_2.
  - right. apply LoopRun_end in Hloop as [Hok Hdisp].
    exists rotation, (EvFindInit true js None :: calls), None.
    repeat split; try done.
    cbn [forallb eventOk]. rewrite Hjs, Hok. by rewrite bool_decide_eq_true_2.
Qed.

End PassFacts.

(** C8 (as the code has it). When rotation is due and every call before
    the final one succeeds (an init node with a join address is found,
    and every entry the filter keeps gets its plan composed and
    dispatched), the pass ends by invoking the pause signal with
    [false] and returns an [errWaiting] value.  If that call succeeds,
    the generation of the returned status is the requested one and the
    error is [errWaiting "certificate rotation done"]; if it fails, the
    status is returned unchanged with
    [errWaiting "unpausing CAPI cluster"]. *)
Theorem rotateCertificates_converged `{X : Externals}
    (controlPlane : RKEControlPlane) (status : RKEControlPlaneStatus)
    (tokensSecret : Secret) (clusterPlan : Plan) (s s' : PState)
    (status' : RKEControlPlaneStatus) (err : option error) :
  rotateCertificates controlPlane status tokensSecret clusterPlan s
    = ((status', err), s') ->
  shouldRotate controlPlane = true ->
  forallb (fun ev => isPause ev || eventOk ev) (added s s') = true ->
  exists rotation calls pauseErr,
    Spec_RotateCertificates (Spec controlPlane) = Some rotation
    /\ added s s' = calls ++ [EvPause false pauseErr]
    /\ dispatched calls = eligible rotation clusterPlan
    /\ (exists msg, err = Some (errWaiting msg))
    /\ (pauseErr = None ->
        status' = setCertificateRotationGeneration status (Generation rotation)
        /\ CertificateRotationGeneration status' = Generation rotation
        /\ err = Some (errWaiting "certificate rotation done"))
    /\ (pauseErr <> None ->
        status' = status
        /\ err = Some (errWaiting "unpausing CAPI cluster")).
Proof.
  intros Hrun Hdue Hok.
  apply rotateCertificates_run in Hrun as (evs & Hevs & Hpass).
  rewrite (added_app _ _ _ Hevs) in *.
  apply PassRun_cases in Hpass
    as [[_ [Hnot|(ev & Hin & Hpause & Hfail)]]
       |(rotation & calls & pauseErr & _ & Hrot & Hcalls & _ & Hdisp & Hresult)].
  - congruence.
  - rewrite forallb_forall in Hok. apply list_elem_of_In, Hok in Hin.
    rewrite Hpause, Hfail in Hin. discriminate.
  - exists rotation, calls, pauseErr.
    destruct pauseErr as [pe|]; inversion Hresult; subst.
    + repeat split; eauto; done.
    + repeat split; eauto; done.
Qed.

Lemma rotateCertificates_converged_witness :
  fst (rotateCertificates (X := Sample.externals)
         (Sample.cluster Sample.rke2 (Some (Sample.request 5 [])) true 4)
         {| Initialized := true; CertificateRotationGeneration := 4 |}
         tt Sample.nodes (Sample.start Sample.healthy))
  = ({| Initialized := true; CertificateRotationGeneration := 5 |},
     Some (errWaiting "certificate rotation done")).
Proof.
  pose (r := rotateCertificates (X := Sample.externals)
         (Sample.cluster Sample.rke2 (Some (Sample.request 5 [])) true 4)
         {| Initialized := true; CertificateRotationGeneration := 4 |}
         tt Sample.nodes (Sample.start Sample.healthy)).
  destruct (rotateCertificates_converged (X := Sample.externals)
              (Sample.cluster Sample.rke2 (Some (Sample.request 5 [])) true 4)
              {| Initialized := true; CertificateRotationGeneration := 4 |}
              tt Sample.nodes (Sample.start Sample.healthy) (snd r)
              (fst (fst r)) (snd (fst r)))
    as (rotation & calls & pauseErr & Hrot & Hadded & _ & _ & Hdone & _).
  - vm_compute. reflexivity.
  - vm_compute. reflexivity.
  - vm_compute. reflexivity.
  - assert (Hpause : pauseErr = None).
    { assert (Hlast : last (added (Sample.start Sample.healthy) (snd r))
                      = Some (EvPause (X := Sample.externals) false None))
        by (vm_compute; reflexivity).
      rewrite Hadded, last_snoc in Hlast. by inversion Hlast. }
    destruct (Hdone Hpause) as (Hstatus & _ & Herr).
    inversion Hrot; subst rotation.
    change (fst r = ({| Initialized := true; CertificateRotationGeneration := 5 |},
                      Some (errWaiting "certificate rotation done"))).
    destruct r as [[st er] sf]. cbn [fst snd] in *. by subst.
Defined.

(** C8 (as stated) fails when the unpause call fails: rotation is due,
    every eligible entry got its plan and every dispatch succeeded, the
    pause signal was invoked with [false], and yet the returned status
    still carries the old generation 4 instead of the requested 5. *)
Lemma rotateCertificates_unpause_failure :
  let controlPlane := Sample.cluster Sample.rke2 (Some (Sample.request 5 [])) true 4 in
  let r := rotateCertificates (X := Sample.externals) controlPlane
             (Status controlPlane) tt Sample.nodes (Sample.start Sample.noPause) in
  shouldRotate controlPlane = true
  /\ dispatched (events (snd r))
     = eligible (X := Sample.externals) (Sample.request 5 []) Sample.nodes
  /\ eligible (X := Sample.externals) (Sample.request 5 []) Sample.nodes = Sample.nodes
  /\ forallb dispatchOk (events (snd r)) = true
  /\ last (events (snd r))
     = Some (EvPause (X := Sample.externals) false (Some (errExternal "pause failed")))
  /\ snd (fst r) = Some (errWaiting "unpausing CAPI cluster")
  /\ CertificateRotationGeneration (fst (fst r)) = 4
  /\ CertificateRotationGeneration (fst (fst r)) <> Generation (Sample.request 5 []).
Proof. vm_compute. repeat split; try reflexivity. discriminate. Qed.

(** C9. On every return path but the one of full success (rotation not
    due, init node lookup failed, no init node, plan composition
    failed, dispatch failed with or without a pause error, unpause
    failed) the returned status is the input status.  The generation is
    assigned only after every call succeeded: each entry the filter
    keeps got its plan dispatched, and the final unpause went
    through. *)
Theorem rotateCertificates_status `{X : Externals}
    (controlPlane : RKEControlPlane) (status : RKEControlPlaneStatus)
    (tokensSecret : Secret) (clusterPlan : Plan) (s s' : PState)
    (status' : RKEControlPlaneStatus) (err : option error) :
  rotateCertificates controlPlane status tokensSecret clusterPlan s
    = ((status', err), s') ->
  (shouldRotate controlPlane = false \/ forallb eventOk (added s s') = false ->
   status' = status)
  /\ (status' = status
      \/ exists rotation calls,
           shouldRotate controlPlane = true
           /\ Spec_RotateCertificates (Spec controlPlane) = Some rotation
           /\ added s s' = calls ++ [EvPause false None]
           /\ forallb eventOk (added s s') = true
           /\ dispatched calls = eligible rotation clusterPlan
           /\ status' = setCertificateRotationGeneration status (Generation rotation)
           /\ err = Some (errWaiting "certificate rotation done")).
Proof.
  intros Hrun.
  apply rotateCertificates_run in Hrun as (evs & Hevs & Hpass).
  rewrite (added_app _ _ _ Hevs) in *.
  apply PassRun_cases in Hpass
    as [[Hstatus _]
       |(rotation & calls & pauseErr & Hdue & Hrot & Hcalls & Hok & Hdisp & Hresult)].
  - cbn [fst] in Hstatus. auto.
  - destruct pauseErr as [pe|]; inversion Hresult; subst.
    + auto.
    + assert (Hall : forallb eventOk (calls ++ [EvPause false None]) = true).
      { rewrite forallb_snoc, Hok. reflexivity. }
      split.
      * intros [Hnot|Hfail]; congruence.
      * right. exists rotation, calls. repeat split; auto.
Qed.

Lemma rotateCertificates_status_witness :
  fst (fst (rotateCertificates (X := Sample.externals)
         (Sample.cluster Sample.rke2 (Some (Sample.request 5 [])) true 4)
         {| Initialized := true; CertificateRotationGeneration := 4 |}
         tt Sample.nodes (Sample.start Sample.cpFailsNoPause)))
  = {| Initialized := true; CertificateRotationGeneration := 4 |}.
Proof.
  pose (r := rotateCertificates (X := Sample.externals)
         (Sample.cluster Sample.rke2 (Some (Sample.request 5 [])) true 4)
         {| Initialized := true; CertificateRotationGeneration := 4 |}
         tt Sample.nodes (Sample.start Sample.cpFailsNoPause)).
  destruct (rotateCertificates_status (X := Sample.externals)
              (Sample.cluster Sample.rke2 (Some (Sample.request 5 [])) true 4)
              {| Initialized := true; CertificateRotationGeneration := 4 |}
              tt Sample.nodes (Sample.start Sample.cpFailsNoPause) (snd r)
              (fst (fst r)) (snd (fst r)))
    as [Hsame _].
  - vm_compute. reflexivity.
  - apply Hsame. right. vm_compute. reflexivity.
Defined.

(** ** Scenarios of the specification, run on the sample cluster *)

Example ReplaceAll_crt_key :
  strings.ReplaceAll "kube-controller-manager.crt" ".crt" ".key"
  = "kube-controller-manager.key".
Proof. reflexivity. Qed.

Example ReplaceAll_no_match :
  strings.ReplaceAll "kube-scheduler-arg" ".crt" ".key" = "kube-scheduler-arg".
Proof. reflexivity. Qed.

Example FormatInt10_samples :
  strconv.FormatInt10 5 = "5" /\ strconv.FormatInt10 0 = "0"
  /\ strconv.FormatInt10 (-12) = "-12".
Proof. repeat split; reflexivity. Qed.

(** Generation 5 requested, generation 4 applied, an etcd-only and a
    worker-only entry, services [etcd]: the etcd entry gets the
    rotation script and a restart, the worker entry is skipped. *)
Example scenario_etcd_subset :
  let controlPlane := Sample.cluster Sample.rke2 (Some (Sample.request 5 ["etcd"])) true 4 in
  let r := rotateCertificates (X := Sample.externals) controlPlane
             (Status controlPlane) tt [Sample.etcdNode; Sample.workerNode]
             (Sample.start Sample.healthy) in
  dispatched (events (snd r)) = [Sample.etcdNode]
  /\ Sample.applied (world (snd r)) = ["etcd-0"]
  /\ (exists nodePlan,
        events (snd r) !! 2%nat
        = Some (EvAssign (X := Sample.externals) "[etcd-0] certificate rotation"
                  Sample.etcdNode nodePlan "https://etcd-0:9345" 0 0 None)
        /\ map Name (Instructions nodePlan) = ["rotate certificates"; "restart"])
  /\ fst r = ({| Initialized := true; CertificateRotationGeneration := 5 |},
              Some (errWaiting "certificate rotation done")).
Proof.
  vm_compute. repeat split; try reflexivity.
  eexists. split; reflexivity.
Qed.

(** Dispatch to the second of three entries fails: the pause signal is
    invoked with [true], the third entry gets nothing, the generation
    stays, the error is handed up. *)
Example scenario_second_dispatch_fails :
  let controlPlane := Sample.cluster Sample.rke2 (Some (Sample.request 5 [])) true 4 in
  let r := rotateCertificates (X := Sample.externals) controlPlane
             (Status controlPlane) tt Sample.nodes (Sample.start Sample.cpFails) in
  dispatched (events (snd r)) = [Sample.etcdNode; Sample.cpNode]
  /\ last (events (snd r)) = Some (EvPause (X := Sample.externals) true None)
  /\ Sample.paused (world (snd r)) = true
  /\ fst r = ({| Initialized := true; CertificateRotationGeneration := 4 |},
              Some (errExternal "plan failed")).
Proof. vm_compute. repeat split; reflexivity. Qed.

(** All three entries apply their plan: unpause, new generation, and
    the waiting signal. *)
Example scenario_all_dispatched :
  let controlPlane := Sample.cluster Sample.rke2 (Some (Sample.request 5 [])) true 4 in
  let r := rotateCertificates (X := Sample.externals) controlPlane
             (Status controlPlane) tt Sample.nodes (Sample.start Sample.healthy) in
  Sample.applied (world (snd r)) = ["etcd-0"; "cp-0"; "worker-0"]
  /\ last (events (snd r)) = Some (EvPause (X := Sample.externals) false None)
  /\ fst r = ({| Initialized := true; CertificateRotationGeneration := 5 |},
              Some (errWaiting "certificate rotation done")).
Proof. vm_compute. repeat split; reflexivity. Qed.

(** A TLS certificate file configured for the controller manager: its
    certificate and key are left alone. *)
Example scenario_supplied_certificate :
  map Name
    (Instructions
       (fst (fst (fst
          (rotateCertificatesPlan (X := Sample.externals)
             (Sample.cluster Sample.k3s (Some (Sample.request 5 [])) true 4)
             tt (Sample.request 5 []) Sample.cpNode "https://etcd-0:9345"
             (Sample.start Sample.withSuppliedCert))))))
  = ["rotate certificates"; "restart"].
Proof. vm_compute. reflexivity. Qed.

(** * Further properties of the planner code *)

(** ** Service selection *)

(** X1. [rotationContainsService] answers true exactly for a request
    that is present and either names no service or names the given one;
    a nil request contains no service. *)
Theorem rotationContainsService_spec
    (rotation : option RotateCertificates) (service : string) :
  rotationContainsService rotation service = true
  <-> exists r, rotation = Some r /\ (Services r = [] \/ service ∈ Services r).
Proof.
  destruct rotation as [r|].
  - rewrite rotationContainsService_iff. unfold requestIncludesService. split.
    + intros H. exists r. by split.
    + intros [r' [Heq H]]. by inversion Heq; subst.
  - cbn. split; [discriminate|]. by intros [r [Heq _]].
Qed.

Section SelectionFacts.

Context `{X : Externals}.

Lemma roleImplies_known (entry : planEntry) (service : string) :
  roleImplies entry service ->
  service ∈ workerServices ++ controlPlaneOnlyServices ++ etcdServices.
Proof.
  unfold roleImplies. rewrite !elem_of_app. tauto.
Qed.

Lemma roleImplies_role (entry : planEntry) (service : string) :
  roleImplies entry service ->
  isWorker entry = true \/ isControlPlane entry = true \/ isEtcd entry = true.
Proof. unfold roleImplies. tauto. Qed.

End SelectionFacts.

(** X2. A request that names services is never relevant to an entry
    without any role, and a request whose names are all outside the
    thirteen service names of the mapping (a misspelt name, say) is
    relevant to no entry at all. *)
Theorem shouldRotateEntry_unknown `{X : Externals}
    (rotation : RotateCertificates) (entry : planEntry) :
  Services rotation <> [] ->
  (isWorker entry = false /\ isControlPlane entry = false /\ isEtcd entry = false)
  \/ (forall service, service ∈ Services rotation ->
        service ∉ ["rke2-server"; "k3s-server"; "api-server"; "kubelet"; "kube-proxy";
                   "auth-proxy"; "controller-manager"; "scheduler"; "rke2-controller";
                   "k3s-controller"; "admin"; "cloud-controller"; "etcd"]) ->
  shouldRotateEntry rotation entry = false.
Proof.
  intros Hne Hcase. apply not_true_iff_false. intros Htrue.
  apply shouldRotateEntry_true_iff in Htrue as [Hnil|(service & Hin & Hrel)]; [done|].
  apply relevantServices_roleImplies in Hrel.
  destruct Hcase as [(Hw & Hc & He)|Hunknown].
  - apply roleImplies_role in Hrel. rewrite Hw, Hc, He in Hrel.
    destruct Hrel as [?|[?|?]]; discriminate.
  - apply (Hunknown service Hin).
    apply roleImplies_known in Hrel.
    unfold workerServices, controlPlaneOnlyServices, etcdServices in Hrel.
    set_solver.
Qed.

Lemma shouldRotateEntry_unknown_witness :
  shouldRotateEntry (X := Sample.externals)
    (Sample.request 5 ["kube-apiserver"]) Sample.allNode = false.
Proof.
  apply (shouldRotateEntry_unknown (X := Sample.externals)).
  - discriminate.
  - right. intros service Hin. apply list_elem_of_singleton in Hin. subst service.
    apply (bool_decide_eq_false_1 _). vm_compute. reflexivity.
Defined.

(** X3. Naming more services never makes an entry irrelevant: if a
    request with a non-empty service list is relevant to an entry, so is
    every request whose list includes all of its names. *)
Theorem shouldRotateEntry_more_services `{X : Externals}
    (r1 r2 : RotateCertificates) (entry : planEntry) :
  Services r1 <> [] ->
  (forall service, service ∈ Services r1 -> service ∈ Services r2) ->
  shouldRotateEntry r1 entry = true ->
  shouldRotateEntry r2 entry = true.
Proof.
  intros Hne Hsub H1.
  apply shouldRotateEntry_true_iff in H1 as [Hnil|(service & Hin & Hrel)]; [done|].
  apply shouldRotateEntry_true_iff. right. exists service. auto.
Qed.

Lemma shouldRotateEntry_more_services_witness :
  shouldRotateEntry (X := Sample.externals)
    (Sample.request 5 ["admin"; "etcd"]) Sample.etcdNode = true.
Proof.
  apply (shouldRotateEntry_more_services (X := Sample.externals)
           (Sample.request 5 ["etcd"]) (Sample.request 5 ["admin"; "etcd"])).
  - discriminate.
  - intros service Hin. cbn in *. set_solver.
  - vm_compute. reflexivity.
Defined.

(** X4. Whenever the request includes [controller-manager] or
    [scheduler], the relevance filter keeps every control-plane entry,
    so the entries that get the certificate clean-up are never filtered
    out. *)
Theorem shouldRotateEntry_covers_cleanup `{X : Externals}
    (rotation : RotateCertificates) (entry : planEntry) :
  isControlPlane entry = true ->
  rotationContainsService (Some rotation) "controller-manager" = true
  \/ rotationContainsService (Some rotation) "scheduler" = true ->
  shouldRotateEntry rotation entry = true.
Proof.
  intros Hcp Hreq. apply shouldRotateEntry_true_iff.
  assert (Hcm : roleImplies entry "controller-manager").
  { right; left. split; [done|]. right. unfold controlPlaneOnlyServices. set_solver. }
  assert (Hks : roleImplies entry "scheduler").
  { right; left. split; [done|]. right. unfold controlPlaneOnlyServices. set_solver. }
  destruct Hreq as [Hreq|Hreq]; apply rotationContainsService_iff in Hreq;
    (destruct Hreq as [Hnil|Hin]; [by left|right]).
  - exists "controller-manager". split; [done|]. by apply relevantServices_roleImplies.
  - exists "scheduler". split; [done|]. by apply relevantServices_roleImplies.
Qed.

Lemma shouldRotateEntry_covers_cleanup_witness :
  shouldRotateEntry (X := Sample.externals)
    (Sample.request 5 ["scheduler"]) Sample.cpNode = true.
Proof.
  apply (shouldRotateEntry_covers_cleanup (X := Sample.externals)).
  - reflexivity.
  - right. reflexivity.
Defined.

(** ** Plan composition *)

Section CompositionFacts.

Context `{X : Externals}.

Variables (controlPlane : RKEControlPlane) (tokensSecret : Secret)
          (entry : planEntry).

(** Base plan generation failed: nothing is composed. *)
Lemma rotateCertificatesPlan_failed (rotation : RotateCertificates)
    (joinServer : string) (s : PState)
    (base : NodePlan) (config : gmap string ArgValue) (joined : string)
    (e : error) (w' : World) :
  generatePlanWithConfigFiles (world s) controlPlane tokensSecret entry
    (if isOnlyWorker entry then "" else joinServer) true
    = ((base, config, joined, Some e), w') ->
  rotateCertificatesPlan controlPlane tokensSecret rotation entry joinServer s
  = ((emptyNodePlan, joined, Some e),
     record w'
       (EvGenerate entry (if isOnlyWorker entry then "" else joinServer) true (Some e)) s).
Proof.
  intros Hgen.
  unfold rotateCertificatesPlan, bind, doGeneratePlanWithConfigFiles.
  cbv beta iota zeta. rewrite Hgen. reflexivity.
Qed.

Lemma fold_left_flags (services : list string) (args : list string) :
  fold_left (fun (args : list string) service => args ++ ["-s"; service]) services args
  = args ++ flat_map (fun service => ["-s"; service]) services.
Proof.
  revert args. induction services as [|service services IH]; intros args.
  - cbn. by rewrite app_nil_r.
  - cbn [fold_left flat_map]. rewrite IH. by rewrite <- app_assoc.
Qed.

Lemma staticManifestRemoval_length (what path : string) :
  (length (staticManifestRemoval controlPlane what path) <= 1)%nat.
Proof. unfold staticManifestRemoval. destruct (String.eqb _ _); cbn; lia. Qed.

Lemma staticManifestRemoval_other_runtime (what path : string) :
  String.eqb (GetRuntime (KubernetesVersion (Spec controlPlane))) RuntimeRKE2 = false ->
  staticManifestRemoval controlPlane what path = [].
Proof. intros Hrt. unfold staticManifestRemoval. by rewrite Hrt. Qed.

Lemma controllerManagerRemovals_length (rotation : RotateCertificates)
    (config : gmap string ArgValue) :
  (length (controllerManagerRemovals controlPlane rotation config) <= 3)%nat
  /\ (String.eqb (GetRuntime (KubernetesVersion (Spec controlPlane))) RuntimeRKE2 = false ->
      length (controllerManagerRemovals controlPlane rotation config) <= 2)%nat.
Proof.
  unfold controllerManagerRemovals.
  destruct (_ && _); cbv zeta; cbn [length app]; [|split; intros; lia].
  split.
  - pose proof (staticManifestRemoval_length
                  "remove kube-controller-manager static pod manifest"
                  "/var/lib/rancher/rke2/agent/pod-manifests/kube-controller-manager.yaml").
    lia.
  - intros Hrt. rewrite staticManifestRemoval_other_runtime by done. cbn. lia.
Qed.

Lemma schedulerRemovals_length (rotation : RotateCertificates)
    (config : gmap string ArgValue) :
  (length (schedulerRemovals controlPlane rotation config) <= 3)%nat
  /\ (String.eqb (GetRuntime (KubernetesVersion (Spec controlPlane))) RuntimeRKE2 = false ->
      length (schedulerRemovals controlPlane rotation config) <= 2)%nat.
Proof.
  unfold schedulerRemovals.
  destruct (_ && _); cbv zeta; cbn [length app]; [|split; intros; lia].
  split.
  - pose proof (staticManifestRemoval_length
                  "remove kube-scheduler static pod manifest"
                  "/var/lib/rancher/rke2/agent/pod-manifests/kube-scheduler.yaml").
    lia.
  - intros Hrt. rewrite staticManifestRemoval_other_runtime by done. cbn. lia.
Qed.

Lemma policyRemoval_length :
  (length (policyRemoval controlPlane entry) <= 1)%nat
  /\ (String.eqb (GetRuntime (KubernetesVersion (Spec controlPlane))) RuntimeRKE2 = false ->
      policyRemoval controlPlane entry = []).
Proof.
  unfold policyRemoval. cbv zeta. split.
  - destruct (_ && _); cbn; lia.
  - intros Hrt. by rewrite Hrt.
Qed.

End CompositionFacts.

Lemma FormatInt10_inj (a b : Z) :
  strconv.FormatInt10 a = strconv.FormatInt10 b -> a = b.
Proof.
  unfold strconv.FormatInt10. intros Heq.
  assert (Hparse : forall z, NilZero.int_of_string (NilZero.string_of_int (Z.to_int z))
                             = Some (Z.to_int z)).
  { intros z. apply NilZero.isi.
    - destruct z as [|p|p]; cbn; try discriminate.
      intros Hnil. inversion Hnil as [Hp].
      by apply DecimalPos.Unsigned.to_uint_nonnil in Hp.
    - destruct z as [|p|p]; cbn; try discriminate.
      intros Hnil. inversion Hnil as [Hp].
      by apply DecimalPos.Unsigned.to_uint_nonnil in Hp. }
  apply DecimalZ.to_int_inj.
  pose proof (Hparse a) as Ha. rewrite Heq, Hparse in Ha. by inversion Ha.
Qed.

(** X5. When base plan generation fails, [rotateCertificatesPlan] hands
    back the empty node plan (whatever generation had built is
    dropped), the join server generation reported and the very error,
    for any entry and any request; generation is the only call made. *)
Theorem rotateCertificatesPlan_generation_error `{X : Externals}
    (controlPlane : RKEControlPlane) (tokensSecret : Secret)
    (rotation : RotateCertificates) (entry : planEntry) (joinServer : string)
    (s : PState) (base : NodePlan) (config : gmap string ArgValue)
    (joined : string) (e : error) (w' : World) :
  generatePlanWithConfigFiles (world s) controlPlane tokensSecret entry
    (if isOnlyWorker entry then "" else joinServer) true
    = ((base, config, joined, Some e), w') ->
  fst (rotateCertificatesPlan controlPlane tokensSecret rotation entry joinServer s)
  = ({| Files := []; Instructions := [] |}, joined, Some e)
  /\ added s (snd (rotateCertificatesPlan controlPlane tokensSecret rotation entry
                     joinServer s))
     = [EvGenerate entry (if isOnlyWorker entry then "" else joinServer) true (Some e)].
Proof.
  intros Hgen.
  rewrite (rotateCertificatesPlan_failed controlPlane tokensSecret entry rotation
             joinServer s base config joined e w' Hgen).
  split; [reflexivity|]. by apply added_app.
Qed.

Lemma rotateCertificatesPlan_generation_error_witness :
  fst (rotateCertificatesPlan (X := Sample.externals)
         (Sample.cluster Sample.rke2 (Some (Sample.request 5 [])) true 4) tt
         (Sample.request 5 []) Sample.cpNode "https://etcd-0:9345"
         (Sample.start
            {| Sample.renderedConfig := Sample.selfSigned; Sample.renderFails := true;
               Sample.badMachines := []; Sample.pauseBroken := false;
               Sample.paused := false; Sample.applied := [] |}))
  = ({| Files := []; Instructions := [] |}, "", Some (errExternal "render failed")).
Proof.
  apply (rotateCertificatesPlan_generation_error (X := Sample.externals)
           (Sample.cluster Sample.rke2 (Some (Sample.request 5 [])) true 4) tt
           (Sample.request 5 []) Sample.cpNode "https://etcd-0:9345"
           (Sample.start
              {| Sample.renderedConfig := Sample.selfSigned; Sample.renderFails := true;
                 Sample.badMachines := []; Sample.pauseBroken := false;
                 Sample.paused := false; Sample.applied := [] |})
           emptyNodePlan ∅ "" (errExternal "render failed")
           {| Sample.renderedConfig := Sample.selfSigned; Sample.renderFails := true;
              Sample.badMachines := []; Sample.pauseBroken := false;
              Sample.paused := false; Sample.applied := [] |}).
  reflexivity.
Defined.

(** X6. A composed plan keeps the base plan: its files and its
    instructions stay in front, in order.  Nothing is added to the files
    for a worker-only entry; for any other entry exactly one file is
    added, the encoded rotation script at
    [/var/lib/rancher/<runtime>/rancher_v2prov_certificate_rotation/bin/rotate.sh];
    and at least one instruction is always appended. *)
Theorem rotateCertificatesPlan_keeps_base `{X : Externals}
    (controlPlane : RKEControlPlane) (tokensSecret : Secret)
    (rotation : RotateCertificates) (entry : planEntry) (joinServer : string)
    (s : PState) (base : NodePlan) (config : gmap string ArgValue)
    (joined : string) (w' : World) :
  generatePlanWithConfigFiles (world s) controlPlane tokensSecret entry
    (if isOnlyWorker entry then "" else joinServer) true
    = ((base, config, joined, None), w') ->
  exists rotatePlan appended,
    fst (rotateCertificatesPlan controlPlane tokensSecret rotation entry joinServer s)
    = (rotatePlan, joined, None)
    /\ Files rotatePlan
       = Files base
         ++ (if isOnlyWorker entry then []
             else [ {| Content := base64EncodeToString idempotentRotateScript;
                       Path := "/var/lib/rancher/"
                                 +:+ GetRuntime (KubernetesVersion (Spec controlPlane))
                                 +:+ "/rancher_v2prov_certificate_rotation/bin/rotate.sh" |} ])
    /\ Instructions rotatePlan = Instructions base ++ appended
    /\ appended <> [].
Proof.
  intros Hgen. destruct (isOnlyWorker entry) eqn:Hw.
  - rewrite (rotateCertificatesPlan_worker controlPlane tokensSecret rotation entry
               joinServer s base config joined w' Hw Hgen).
    do 2 eexists. split; [reflexivity|]. cbn [appendInstructions Files Instructions].
    split; [by rewrite app_nil_r|]. split; [reflexivity|discriminate].
  - rewrite (rotateCertificatesPlan_server controlPlane tokensSecret rotation entry
               joinServer s base config joined w' Hw Hgen).
    do 2 eexists. split; [reflexivity|]. cbn [Files Instructions].
    split; [reflexivity|]. split; [reflexivity|discriminate].
Qed.

Lemma rotateCertificatesPlan_keeps_base_witness :
  exists rotatePlan,
    fst (rotateCertificatesPlan (X := Sample.externals)
           (Sample.cluster Sample.k3s (Some (Sample.request 5 [])) true 4) tt
           (Sample.request 5 []) Sample.etcdNode "https://etcd-0:9345"
           (Sample.start Sample.healthy))
    = (rotatePlan, "https://etcd-0:9345", None)
    /\ map Path (Files rotatePlan)
       = ["/etc/rancher/config.yaml";
          "/var/lib/rancher/k3s/rancher_v2prov_certificate_rotation/bin/rotate.sh"].
Proof.
  destruct (rotateCertificatesPlan_keeps_base (X := Sample.externals)
              (Sample.cluster Sample.k3s (Some (Sample.request 5 [])) true 4) tt
              (Sample.request 5 []) Sample.etcdNode "https://etcd-0:9345"
              (Sample.start Sample.healthy)
              {| Files := [ {| Content := "server: https://etcd-0:9345";
                               Path := "/etc/rancher/config.yaml" |} ];
                 Instructions := [] |}
              Sample.selfSigned "https://etcd-0:9345" Sample.healthy)
    as (rotatePlan & appended & Hrun & Hfiles & _).
  - reflexivity.
  - exists rotatePlan. split; [exact Hrun|]. rewrite Hfiles. reflexivity.
Defined.

(** X7. For an entry that is not worker-only, the first appended
    instruction runs [sh -xe <script> <runtime> <generation>] followed
    by one [-s <service>] pair for every named service, in the order of
    the request; with no service named there is no [-s] flag. *)
Theorem rotateCertificatesPlan_script_arguments `{X : Externals}
    (controlPlane : RKEControlPlane) (tokensSecret : Secret)
    (rotation : RotateCertificates) (entry : planEntry) (joinServer : string)
    (s : PState) (base : NodePlan) (config : gmap string ArgValue)
    (joined : string) (w' : World) :
  isOnlyWorker entry = false ->
  generatePlanWithConfigFiles (world s) controlPlane tokensSecret entry joinServer true
    = ((base, config, joined, None), w') ->
  Instructions
    (fst (fst (fst (rotateCertificatesPlan controlPlane tokensSecret rotation entry
                      joinServer s))))
    !! length (Instructions base)
  = Some {| Name := "rotate certificates";
            Command := "sh";
            Args :=
              ["-xe";
               "/var/lib/rancher/" +:+ GetRuntime (KubernetesVersion (Spec controlPlane))
                 +:+ "/rancher_v2prov_certificate_rotation/bin/rotate.sh";
               GetRuntime (KubernetesVersion (Spec controlPlane));
               strconv.FormatInt10 (Generation rotation)]
              ++ flat_map (fun service => ["-s"; service]) (Services rotation) |}.
Proof.
  intros Hw Hgen.
  rewrite (rotateCertificatesPlan_server controlPlane tokensSecret rotation entry
             joinServer s base config joined w' Hw Hgen).
  cbn [fst Instructions].
  rewrite lookup_app_r by lia. rewrite Nat.sub_diag. cbn [lookup list_lookup].
  unfold rotateInstruction. rewrite fold_left_flags. reflexivity.
Qed.

Lemma rotateCertificatesPlan_script_arguments_witness :
  Instructions
    (fst (fst (fst (rotateCertificatesPlan (X := Sample.externals)
       (Sample.cluster Sample.k3s (Some (Sample.request 7 ["etcd"; "kubelet"])) true 4) tt
       (Sample.request 7 ["etcd"; "kubelet"]) Sample.etcdNode "https://etcd-0:9345"
       (Sample.start Sample.healthy)))))
    !! 0%nat
  = Some {| Name := "rotate certificates";
            Command := "sh";
            Args := ["-xe";
                     "/var/lib/rancher/k3s/rancher_v2prov_certificate_rotation/bin/rotate.sh";
                     "k3s"; "7"; "-s"; "etcd"; "-s"; "kubelet"] |}.
Proof.
  apply (rotateCertificatesPlan_script_arguments (X := Sample.externals)
           (Sample.cluster Sample.k3s (Some (Sample.request 7 ["etcd"; "kubelet"])) true 4) tt
           (Sample.request 7 ["etcd"; "kubelet"]) Sample.etcdNode "https://etcd-0:9345"
           (Sample.start Sample.healthy)
           {| Files := [ {| Content := "server: https://etcd-0:9345";
                            Path := "/etc/rancher/config.yaml" |} ];
              Instructions := [] |}
           Sample.selfSigned "https://etcd-0:9345" Sample.healthy).
  - reflexivity.
  - reflexivity.
Defined.

(** X8. An entry that is neither worker-only nor control plane (an
    etcd-only entry) never gets a certificate or static pod manifest
    removal of its own: between the run of the script and the restart
    of the server unit there is at most the instruction of the manifest
    removal policy, and on a runtime other than RKE2 there is nothing,
    whatever the request names and whatever the rendered arguments
    say. *)
Theorem rotateCertificatesPlan_not_control_plane `{X : Externals}
    (controlPlane : RKEControlPlane) (tokensSecret : Secret)
    (rotation : RotateCertificates) (entry : planEntry) (joinServer : string)
    (s : PState) (base : NodePlan) (config : gmap string ArgValue)
    (joined : string) (w' : World) :
  isOnlyWorker entry = false ->
  isControlPlane entry = false ->
  generatePlanWithConfigFiles (world s) controlPlane tokensSecret entry joinServer true
    = ((base, config, joined, None), w') ->
  let runtime := GetRuntime (KubernetesVersion (Spec controlPlane)) in
  let restart :=
    {| Name := "restart"; Command := "systemctl";
       Args := ["restart"; GetRuntimeServerUnit (KubernetesVersion (Spec controlPlane))] |} in
  Instructions
    (fst (fst (fst (rotateCertificatesPlan controlPlane tokensSecret rotation entry
                      joinServer s))))
  = Instructions base
    ++ rotateInstruction controlPlane rotation
       :: (if String.eqb runtime RuntimeRKE2
              && fst (generateManifestRemovalInstruction runtime entry)
           then [snd (generateManifestRemovalInstruction runtime entry)]
           else [])
    ++ [restart].
Proof.
  intros Hw Hcp Hgen runtime restart.
  rewrite (rotateCertificatesPlan_server controlPlane tokensSecret rotation entry
             joinServer s base config joined w' Hw Hgen).
  cbn [fst Instructions]. rewrite Hcp. reflexivity.
Qed.

Lemma rotateCertificatesPlan_not_control_plane_witness :
  map Name
    (Instructions
       (fst (fst (fst (rotateCertificatesPlan (X := Sample.externals)
          (Sample.cluster Sample.rke2 (Some (Sample.request 5 [])) true 4) tt
          (Sample.request 5 []) Sample.etcdNode "https://etcd-0:9345"
          (Sample.start Sample.healthy))))))
  = ["rotate certificates"; "restart"].
Proof.
  rewrite (rotateCertificatesPlan_not_control_plane (X := Sample.externals)
             (Sample.cluster Sample.rke2 (Some (Sample.request 5 [])) true 4) tt
             (Sample.request 5 []) Sample.etcdNode "https://etcd-0:9345"
             (Sample.start Sample.healthy)
             {| Files := [ {| Content := "server: https://etcd-0:9345";
                              Path := "/etc/rancher/config.yaml" |} ];
                Instructions := [] |}
             Sample.selfSigned "https://etcd-0:9345" Sample.healthy
             eq_refl eq_refl eq_refl).
  reflexivity.
Defined.

(** X9. For an entry that is not worker-only, between two and nine
    instructions are appended to the base plan; on a runtime other than
    RKE2 at most six, since no manifest is ever removed there. *)
Theorem rotateCertificatesPlan_instruction_count `{X : Externals}
    (controlPlane : RKEControlPlane) (tokensSecret : Secret)
    (rotation : RotateCertificates) (entry : planEntry) (joinServer : string)
    (s : PState) (base : NodePlan) (config : gmap string ArgValue)
    (joined : string) (w' : World) :
  isOnlyWorker entry = false ->
  generatePlanWithConfigFiles (world s) controlPlane tokensSecret entry joinServer true
    = ((base, config, joined, None), w') ->
  let n := length (Instructions
                     (fst (fst (fst (rotateCertificatesPlan controlPlane tokensSecret
                                       rotation entry joinServer s))))) in
  (length (Instructions base) + 2 <= n <= length (Instructions base) + 9)%nat
  /\ (String.eqb (GetRuntime (KubernetesVersion (Spec controlPlane))) RuntimeRKE2 = false ->
      n <= length (Instructions base) + 6)%nat.
Proof.
  intros Hw Hgen n. subst n.
  rewrite (rotateCertificatesPlan_server controlPlane tokensSecret rotation entry
             joinServer s base config joined w' Hw Hgen).
  cbn [fst Instructions].
  pose proof (controllerManagerRemovals_length controlPlane rotation config) as [Hcm Hcm'].
  pose proof (schedulerRemovals_length controlPlane rotation config) as [Hks Hks'].
  pose proof (policyRemoval_length controlPlane entry) as [Hpol Hpol'].
  rewrite length_app. cbn [length]. rewrite !length_app. cbn [length].
  destruct (isControlPlane entry); rewrite ?length_app; cbn [length]; split.
  - lia.
  - intros Hrt. specialize (Hcm' Hrt). specialize (Hks' Hrt).
    rewrite (Hpol' Hrt) in *. cbn [length]. lia.
  - lia.
  - intros Hrt. rewrite (Hpol' Hrt) in *. cbn [length]. lia.
Qed.

Lemma rotateCertificatesPlan_instruction_count_witness :
  (length (Instructions
             (fst (fst (fst (rotateCertificatesPlan (X := Sample.externals)
                (Sample.cluster Sample.k3s (Some (Sample.request 5 [])) true 4) tt
                (Sample.request 5 []) Sample.cpNode "https://etcd-0:9345"
                (Sample.start Sample.healthy))))))
   <= 6)%nat.
Proof.
  apply (rotateCertificatesPlan_instruction_count (X := Sample.externals)
           (Sample.cluster Sample.k3s (Some (Sample.request 5 [])) true 4) tt
           (Sample.request 5 []) Sample.cpNode "https://etcd-0:9345"
           (Sample.start Sample.healthy)
           {| Files := [ {| Content := "server: https://etcd-0:9345";
                            Path := "/etc/rancher/config.yaml" |} ];
              Instructions := [] |}
           Sample.selfSigned "https://etcd-0:9345" Sample.healthy).
  - reflexivity.
  - reflexivity.
  - reflexivity.
Defined.

(** X10. For a worker-only entry the outcome depends neither on the
    rotation request nor on the join server passed in: two requests
    with different generations or services give the same plan, the same
    joined server, the same error and the same call. *)
Theorem rotateCertificatesPlan_worker_ignores_request `{X : Externals}
    (controlPlane : RKEControlPlane) (tokensSecret : Secret)
    (r1 r2 : RotateCertificates) (entry : planEntry) (js1 js2 : string)
    (s : PState) :
  isOnlyWorker entry = true ->
  rotateCertificatesPlan controlPlane tokensSecret r1 entry js1 s
  = rotateCertificatesPlan controlPlane tokensSecret r2 entry js2 s.
Proof.
  intros Hw.
  destruct (generatePlanWithConfigFiles (world s) controlPlane tokensSecret entry "" true)
    as [[[[base config] joined] [e|]] w'] eqn:Hgen.
  - assert (Hgen' : forall js,
              generatePlanWithConfigFiles (world s) controlPlane tokensSecret entry
                (if isOnlyWorker entry then "" else js) true
              = ((base, config, joined, Some e), w')) by (intros js; by rewrite Hw).
    rewrite (rotateCertificatesPlan_failed controlPlane tokensSecret entry r1 js1 s
               base config joined e w' (Hgen' js1)).
    rewrite (rotateCertificatesPlan_failed controlPlane tokensSecret entry r2 js2 s
               base config joined e w' (Hgen' js2)).
    by rewrite Hw.
  - rewrite (rotateCertificatesPlan_worker controlPlane tokensSecret r1 entry js1 s
               base config joined w' Hw Hgen).
    by rewrite (rotateCertificatesPlan_worker controlPlane tokensSecret r2 entry js2 s
                  base config joined w' Hw Hgen).
Qed.

Lemma rotateCertificatesPlan_worker_ignores_request_witness :
  rotateCertificatesPlan (X := Sample.externals)
    (Sample.cluster Sample.rke2 (Some (Sample.request 5 [])) true 4) tt
    (Sample.request 5 []) Sample.workerNode "https://etcd-0:9345"
    (Sample.start Sample.healthy)
  = rotateCertificatesPlan (X := Sample.externals)
      (Sample.cluster Sample.rke2 (Some (Sample.request 5 [])) true 4) tt
      (Sample.request 6 ["kubelet"]) Sample.workerNode ""
      (Sample.start Sample.healthy).
Proof.
  apply (rotateCertificatesPlan_worker_ignores_request (X := Sample.externals)).
  reflexivity.
Defined.

(** X11. For an entry that is not worker-only, requests with different
    generations give different plans: the generation is printed in
    decimal into the arguments of the script run, and the printing is
    one-to-one. *)
Theorem rotateCertificatesPlan_generation_distinct `{X : Externals}
    (controlPlane : RKEControlPlane) (tokensSecret : Secret)
    (r1 r2 : RotateCertificates) (entry : planEntry) (joinServer : string)
    (s : PState) (base : NodePlan) (config : gmap string ArgValue)
    (joined : string) (w' : World) :
  isOnlyWorker entry = false ->
  generatePlanWithConfigFiles (world s) controlPlane tokensSecret entry joinServer true
    = ((base, config, joined, None), w') ->
  Generation r1 <> Generation r2 ->
  fst (fst (fst (rotateCertificatesPlan controlPlane tokensSecret r1 entry joinServer s)))
  <> fst (fst (fst (rotateCertificatesPlan controlPlane tokensSecret r2 entry joinServer s))).
Proof.
  intros Hw Hgen Hne Heq.
  rewrite (rotateCertificatesPlan_server controlPlane tokensSecret r1 entry
             joinServer s base config joined w' Hw Hgen) in Heq.
  rewrite (rotateCertificatesPlan_server controlPlane tokensSecret r2 entry
             joinServer s base config joined w' Hw Hgen) in Heq.
  cbn [fst] in Heq.
  apply (f_equal Instructions) in Heq. cbn [Instructions] in Heq.
  apply app_inv_head in Heq.
  inversion Heq as [[Hargs Hrest]]. clear Heq Hrest.
  rewrite !fold_left_flags in Hargs.
  cbn [app] in Hargs. inversion Hargs as [[Hfmt Hflags]].
  by apply FormatInt10_inj in Hfmt.
Qed.

Lemma rotateCertificatesPlan_generation_distinct_witness :
  Generation (Sample.request 5 []) <> Generation (Sample.request 6 [])
  /\ fst (fst (fst (rotateCertificatesPlan (X := Sample.externals)
        (Sample.cluster Sample.rke2 (Some (Sample.request 5 [])) true 4) tt
        (Sample.request 5 []) Sample.cpNode "https://etcd-0:9345"
        (Sample.start Sample.healthy))))
     <> fst (fst (fst (rotateCertificatesPlan (X := Sample.externals)
        (Sample.cluster Sample.rke2 (Some (Sample.request 5 [])) true 4) tt
        (Sample.request 6 []) Sample.cpNode "https://etcd-0:9345"
        (Sample.start Sample.healthy)))).
Proof.
  split; [discriminate|].
  apply (rotateCertificatesPlan_generation_distinct (X := Sample.externals)
           (Sample.cluster Sample.rke2 (Some (Sample.request 5 [])) true 4) tt
           (Sample.request 5 []) (Sample.request 6 []) Sample.cpNode "https://etcd-0:9345"
           (Sample.start Sample.healthy)
           {| Files := [ {| Content := "server: https://etcd-0:9345";
                            Path := "/etc/rancher/config.yaml" |} ];
              Instructions := [] |}
           Sample.selfSigned "https://etcd-0:9345" Sample.healthy).
  - reflexivity.
  - reflexivity.
  - discriminate.
Defined.

(** ** Rotation passes *)

Section PassTraceFacts.

Context `{X : Externals}.

Variables (controlPlane : RKEControlPlane) (status : RKEControlPlaneStatus)
          (clusterPlan : Plan).

Lemma snoc_split_unique {A : Type} (l pre post : list A) (x y : A) :
  l ++ [x] = pre ++ y :: post -> y ∉ l -> post = [] /\ pre = l /\ x = y.
Proof.
  intros Heq Hnotin.
  destruct post as [|z post _] using rev_ind.
  - apply app_inj_tail in Heq as [-> ->]. done.
  - rewrite app_comm_cons, app_assoc in Heq.
    apply app_inj_tail in Heq as [-> _].
    exfalso. apply Hnotin. set_solver.
Qed.

Lemma LoopRun_returned_error rotation joinServer nodes evs returned :
  LoopRun status rotation joinServer nodes evs (Some returned) ->
  exists e, returned = (status, Some e).
Proof.
  remember (Some returned) as out eqn:Hout. intros Hrun.
  induction Hrun; try discriminate; auto; inversion Hout; eauto.
Qed.

Lemma LoopRun_end_no_pause rotation joinServer nodes evs :
  LoopRun status rotation joinServer nodes evs None ->
  existsb isPause evs = false.
Proof.
  remember None as out eqn:Hout. intros Hrun.
  induction Hrun; try discriminate; auto.
Qed.

(** The pause call of the loop comes right after a failed dispatch, and
    closes the trace. *)
Lemma LoopRun_pause rotation joinServer nodes evs out :
  LoopRun status rotation joinServer nodes evs out ->
  forall pre post paused pauseErr,
    evs = pre ++ EvPause paused pauseErr :: post ->
    post = [] /\ paused = true /\ existsb isPause pre = false
    /\ exists msg entry nodePlan joinedServer e,
         last pre = Some (EvAssign msg entry nodePlan joinedServer 0 0 (Some e)).
Proof.
  induction 1 as [|node nodes evs out Hrel Hrun IH|node nodes e0 Hrel
                 |node nodes np js e0 pe Hrel
                 |node nodes np js evs out Hrel Hrun IH];
    intros pre post paused pauseErr Heq.
  - by destruct pre.
  - eauto.
  - destruct pre as [|? [|? pre]]; inversion Heq.
  - destruct pre as [|? [|? [|? [|? pre]]]]; inversion Heq; subst.
    repeat split; eauto 10.
  - destruct pre as [|? [|? pre]]; inversion Heq; subst.
    destruct (IH _ _ _ _ eq_refl)
      as (Hpost & Hpaused & Hnone & msg & entry & nodePlan & joinedServer & e & Hlast).
    repeat split; auto.
    exists msg, entry, nodePlan, joinedServer, e.
    by rewrite !last_cons, Hlast.
Qed.

(** A failed plan composition closes the trace; every call before it
    succeeded and none of them is a pause. *)
Lemma LoopRun_generate_error rotation joinServer nodes evs out :
  LoopRun status rotation joinServer nodes evs out ->
  forall pre post entry js renderS3 e,
    evs = pre ++ EvGenerate entry js renderS3 (Some e) :: post ->
    post = [] /\ out = Some (status, Some e)
    /\ forallb eventOk pre = true /\ existsb isPause pre = false.
Proof.
  induction 1 as [|node nodes evs out Hrel Hrun IH|node nodes e0 Hrel
                 |node nodes np js0 e0 pe Hrel
                 |node nodes np js0 evs out Hrel Hrun IH];
    intros pre post entry js renderS3 e Heq.
  - by destruct pre.
  - eauto.
  - destruct pre as [|? [|? pre]]; inversion Heq; subst. done.
  - destruct pre as [|? [|? [|? [|? pre]]]]; inversion Heq.
  - destruct pre as [|? [|? pre]]; inversion Heq; subst.
    destruct (IH _ _ _ _ _ _ eq_refl) as (Hpost & Hout & Hok & Hnone).
    repeat split; auto.
Qed.

(** The entries that got a plan are the first ones the filter keeps. *)
Lemma LoopRun_prefix rotation joinServer nodes evs out :
  LoopRun status rotation joinServer nodes evs out ->
  exists rest, List.filter (shouldRotateEntry rotation) nodes = dispatched evs ++ rest.
Proof.
  induction 1 as [|node nodes evs out Hrel Hrun IH|node nodes e0 Hrel
                 |node nodes np js0 e0 pe Hrel
                 |node nodes np js0 evs out Hrel Hrun IH];
    cbn [List.filter]; rewrite ?Hrel.
  - by exists [].
  - exact IH.
  - eexists. reflexivity.
  - eexists. reflexivity.
  - destruct IH as [rest Hrest]. exists rest.
    cbn [dispatched flat_map app]. f_equal. exact Hrest.
Qed.

(** What the calls of the loop are given. *)
Lemma LoopRun_calls rotation joinServer nodes evs out :
  LoopRun status rotation joinServer nodes evs out ->
  Forall (fun ev =>
            match ev with
            | EvGenerate entry js renderS3 _ =>
                renderS3 = true
                /\ js = (if isOnlyWorker entry then "" else joinServer)
                /\ shouldRotateEntry rotation entry = true
            | EvAssign msg entry _ _ minWait maxWait _ =>
                msg = "[" +:+ machineName entry +:+ "] certificate rotation"
                /\ minWait = 0 /\ maxWait = 0
                /\ shouldRotateEntry rotation entry = true
            | EvPause paused _ => paused = true
            | EvFindInit _ _ _ => False
            end) evs.
Proof.
  induction 1; repeat constructor; auto.
Qed.

End PassTraceFacts.

(** X12. [rotateCertificates] returns a nil error only when it did
    nothing: either rotation was not due and no call was made at all,
    or the init node lookup was the single call and it found no node or
    a blank join server.  On every other path the caller gets an error
    value, the waiting signal included.  With a nil error the status is
    the input status. *)
Theorem rotateCertificates_nil_error `{X : Externals}
    (controlPlane : RKEControlPlane) (status : RKEControlPlaneStatus)
    (tokensSecret : Secret) (clusterPlan : Plan) (s s' : PState)
    (status' : RKEControlPlaneStatus) (err : option error) :
  rotateCertificates controlPlane status tokensSecret clusterPlan s
    = ((status', err), s') ->
  (err = None <->
     (shouldRotate controlPlane = false /\ added s s' = [])
     \/ (shouldRotate controlPlane = true
         /\ exists found joinServer,
              added s s' = [EvFindInit found joinServer None]
              /\ (found = false \/ joinServer = "")))
  /\ (err = None -> status' = status).
Proof.
  intros Hrun.
  apply rotateCertificates_run in Hrun as (evs & Hevs & Hpass).
  rewrite (added_app _ _ _ Hevs).
  remember (status', err) as result eqn:Hres.
  destruct Hpass as [Hdue|found js e0 Hdue|found js Hdue Hnone
                    |rotation js calls returned Hdue Hrot Hjs Hloop
                    |rotation js calls e0 Hdue Hrot Hjs Hloop
                    |rotation js calls Hdue Hrot Hjs Hloop];
    try (inversion Hres; subst).
  - split; [|done]. split; [auto|done].
  - split; [|done]. split; [done|].
    intros [[Hnot _]|(_ & f & j & Hone & _)]; [congruence|by inversion Hone].
  - split; [|done]. split; [|done]. intros _. right. split; [done|].
    exists found, js. split; [done|].
    apply orb_true_iff in Hnone as [Hf|Hj].
    + left. by apply negb_true_iff.
    + right. by apply String.eqb_eq.
  - destruct (LoopRun_returned_error _ _ _ _ _ _ Hloop) as [e Hret].
    inversion Hret; subst. split; [|done]. split; [done|].
    intros [[Hnot _]|(_ & f & j & Hone & Hblank)]; [congruence|].
    inversion Hone; subst.
    destruct Hblank as [Hf|Hblank]; [done|]. subst. by rewrite String.eqb_refl in Hjs.
  - split; [|done]. split; [done|].
    intros [[Hnot _]|(_ & f & j & Hone & _)]; [congruence|].
    inversion Hone as [[Hf Hj He Hnil]]. by destruct calls.
  - split; [|done]. split; [done|].
    intros [[Hnot _]|(_ & f & j & Hone & _)]; [congruence|].
    inversion Hone as [[Hf Hj He Hnil]]. by destruct calls.
Qed.

Lemma rotateCertificates_nil_error_witness :
  snd (fst (rotateCertificates (X := Sample.externals)
              (Sample.cluster Sample.rke2 (Some (Sample.request 5 [])) true 4)
              {| Initialized := true; CertificateRotationGeneration := 4 |}
              tt [Sample.workerNode] (Sample.start Sample.healthy)))
  = None.
Proof.
  pose (r := rotateCertificates (X := Sample.externals)
         (Sample.cluster Sample.rke2 (Some (Sample.request 5 [])) true 4)
         {| Initialized := true; CertificateRotationGeneration := 4 |}
         tt [Sample.workerNode] (Sample.start Sample.healthy)).
  destruct (rotateCertificates_nil_error (X := Sample.externals)
              (Sample.cluster Sample.rke2 (Some (Sample.request 5 [])) true 4)
              {| Initialized := true; CertificateRotationGeneration := 4 |}
              tt [Sample.workerNode] (Sample.start Sample.healthy) (snd r)
              (fst (fst r)) (snd (fst r)))
    as [[_ Hnil] _].
  - vm_compute. reflexivity.
  - apply Hnil. right. split; [reflexivity|].
    exists false, "". split; [vm_compute; reflexivity | by left].
Defined.

(** X13. The pause signal is invoked at most once in a pass, and as the
    very last call.  With [true] it directly follows a failed dispatch;
    with [false] every call before it succeeded and every entry the
    filter keeps got its plan. *)
Theorem rotateCertificates_pause_is_last `{X : Externals}
    (controlPlane : RKEControlPlane) (status : RKEControlPlaneStatus)
    (tokensSecret : Secret) (clusterPlan : Plan) (s s' : PState)
    (status' : RKEControlPlaneStatus) (err : option error)
    (pre post : list Event) (paused : bool) (pauseErr : option error) :
  rotateCertificates controlPlane status tokensSecret clusterPlan s
    = ((status', err), s') ->
  added s s' = pre ++ EvPause paused pauseErr :: post ->
  post = []
  /\ existsb isPause pre = false
  /\ (paused = true ->
      exists msg entry nodePlan joinedServer e,
        last pre = Some (EvAssign msg entry nodePlan joinedServer 0 0 (Some e)))
  /\ (paused = false ->
      forallb eventOk pre = true
      /\ exists rotation,
           Spec_RotateCertificates (Spec controlPlane) = Some rotation
           /\ dispatched pre = eligible rotation clusterPlan).
Proof.
  intros Hrun Hadded.
  apply rotateCertificates_run in Hrun as (evs & Hevs & Hpass).
  rewrite (added_app _ _ _ Hevs) in Hadded.
  remember (status', err) as result eqn:Hres.
  destruct Hpass as [Hdue|found js e0 Hdue|found js Hdue Hnone
                    |rotation js calls returned Hdue Hrot Hjs Hloop
                    |rotation js calls e0 Hdue Hrot Hjs Hloop
                    |rotation js calls Hdue Hrot Hjs Hloop];
    try (inversion Hres; subst).
  - by destruct pre.
  - destruct pre as [|? [|? pre]]; inversion Hadded.
  - destruct pre as [|? [|? pre]]; inversion Hadded.
  - destruct pre as [|? pre]; inversion Hadded; subst.
    destruct (LoopRun_pause _ _ _ _ _ _ Hloop _ _ _ _ eq_refl)
      as (Hpost & Hpaused & Hnone & msg & entry & nodePlan & joinedServer & e & Hlast).
    subst. repeat split; auto; try done.
    intros _. exists msg, entry, nodePlan, joinedServer, e.
    by rewrite last_cons, Hlast.
  - pose proof (LoopRun_end_no_pause _ _ _ _ _ Hloop) as Hnone.
    apply LoopRun_end in Hloop as [Hok Hdisp].
    rewrite app_comm_cons in Hadded.
    apply snoc_split_unique in Hadded as (Hpost & Hpre & Hev).
    + inversion Hev; subst. repeat split; auto; try done.
      * cbn [forallb eventOk]. rewrite Hjs, Hok. by rewrite bool_decide_eq_true_2.
      * exists rotation. split; done.
    + intros Hin. apply list_elem_of_In in Hin.
      assert (Hex : existsb isPause (EvFindInit true js None :: calls) = true).
      { apply existsb_exists. eexists. split; [exact Hin|done]. }
      cbn [existsb isPause orb] in Hex. congruence.
  - pose proof (LoopRun_end_no_pause _ _ _ _ _ Hloop) as Hnone.
    apply LoopRun_end in Hloop as [Hok Hdisp].
    rewrite app_comm_cons in Hadded.
    apply snoc_split_unique in Hadded as (Hpost & Hpre & Hev).
    + inversion Hev; subst. repeat split; auto; try done.
      * cbn [forallb eventOk]. rewrite Hjs, Hok. by rewrite bool_decide_eq_true_2.
      * exists rotation. split; done.
    + intros Hin. apply list_elem_of_In in Hin.
      assert (Hex : existsb isPause (EvFindInit true js None :: calls) = true).
      { apply existsb_exists. eexists. split; [exact Hin|done]. }
      cbn [existsb isPause orb] in Hex. congruence.
Qed.

Lemma rotateCertificates_pause_is_last_witness :
  exists pre,
    events (snd (rotateCertificates (X := Sample.externals)
                   (Sample.cluster Sample.rke2 (Some (Sample.request 5 [])) true 4)
                   {| Initialized := true; CertificateRotationGeneration := 4 |}
                   tt Sample.nodes (Sample.start Sample.healthy)))
    = pre ++ [EvPause (X := Sample.externals) false None]
    /\ existsb isPause pre = false.
Proof.
  pose (r := rotateCertificates (X := Sample.externals)
         (Sample.cluster Sample.rke2 (Some (Sample.request 5 [])) true 4)
         {| Initialized := true; CertificateRotationGeneration := 4 |}
         tt Sample.nodes (Sample.start Sample.healthy)).
  pose (pre := take 7 (events (snd r))).
  destruct (rotateCertificates_pause_is_last (X := Sample.externals)
              (Sample.cluster Sample.rke2 (Some (Sample.request 5 [])) true 4)
              {| Initialized := true; CertificateRotationGeneration := 4 |}
              tt Sample.nodes (Sample.start Sample.healthy) (snd r)
              (fst (fst r)) (snd (fst r)) pre [] false None)
    as (_ & Hnone & _).
  - vm_compute. reflexivity.
  - vm_compute. reflexivity.
  - exists pre. split; [vm_compute; reflexivity | exact Hnone].
Defined.

(** X14. When composing the plan of an entry fails, the pass stops
    there: that call is the last one, its error is returned as it is,
    the status is the input status, and the pause signal is not invoked
    at all, although every entry before it has been dispatched
    successfully. *)
Theorem rotateCertificates_composition_failure `{X : Externals}
    (controlPlane : RKEControlPlane) (status : RKEControlPlaneStatus)
    (tokensSecret : Secret) (clusterPlan : Plan) (s s' : PState)
    (status' : RKEControlPlaneStatus) (err : option error)
    (pre post : list Event) (entry : planEntry) (joinServer : string)
    (renderS3 : bool) (e : error) :
  rotateCertificates controlPlane status tokensSecret clusterPlan s
    = ((status', err), s') ->
  added s s' = pre ++ EvGenerate entry joinServer renderS3 (Some e) :: post ->
  post = []
  /\ err = Some e
  /\ status' = status
  /\ existsb isPause (added s s') = false
  /\ forallb eventOk pre = true.
Proof.
  intros Hrun Hadded.
  apply rotateCertificates_run in Hrun as (evs & Hevs & Hpass).
  rewrite (added_app _ _ _ Hevs) in *.
  assert (Hin : EvGenerate entry joinServer renderS3 (Some e) ∈ evs).
  { rewrite Hadded. set_solver. }
  remember (status', err) as result eqn:Hres.
  destruct Hpass as [Hdue|found js e0 Hdue|found js Hdue Hnone
                    |rotation js calls returned Hdue Hrot Hjs Hloop
                    |rotation js calls e0 Hdue Hrot Hjs Hloop
                    |rotation js calls Hdue Hrot Hjs Hloop];
    try (inversion Hres; subst).
  - by destruct pre.
  - destruct pre as [|? [|? pre]]; inversion Hadded.
  - destruct pre as [|? [|? pre]]; inversion Hadded.
  - destruct pre as [|? pre]; inversion Hadded; subst.
    destruct (LoopRun_generate_error _ _ _ _ _ _ Hloop _ _ _ _ _ _ eq_refl)
      as (Hpost & Hout & Hok & Hnone).
    inversion Hout; subst. repeat split; auto.
    + cbn [existsb isPause orb]. rewrite existsb_app, Hnone. reflexivity.
    + cbn [forallb eventOk]. rewrite Hjs, Hok. by rewrite bool_decide_eq_true_2.
  - apply LoopRun_end in Hloop as [Hok _].
    rewrite elem_of_cons, elem_of_app, list_elem_of_singleton in Hin.
    destruct Hin as [Hin|[Hin|Hin]]; try discriminate.
    rewrite forallb_forall in Hok. apply list_elem_of_In, Hok in Hin. discriminate.
  - apply LoopRun_end in Hloop as [Hok _].
    rewrite elem_of_cons, elem_of_app, list_elem_of_singleton in Hin.
    destruct Hin as [Hin|[Hin|Hin]]; try discriminate.
    rewrite forallb_forall in Hok. apply list_elem_of_In, Hok in Hin. discriminate.
Qed.

Lemma rotateCertificates_composition_failure_witness :
  fst (rotateCertificates (X := Sample.externals)
         (Sample.cluster Sample.rke2 (Some (Sample.request 5 [])) true 4)
         {| Initialized := true; CertificateRotationGeneration := 4 |}
         tt Sample.nodes
         (Sample.start
            {| Sample.renderedConfig := Sample.selfSigned; Sample.renderFails := true;
               Sample.badMachines := []; Sample.pauseBroken := false;
               Sample.paused := false; Sample.applied := [] |}))
  = ({| Initialized := true; CertificateRotationGeneration := 4 |},
     Some (errExternal "render failed")).
Proof.
  pose (r := rotateCertificates (X := Sample.externals)
         (Sample.cluster Sample.rke2 (Some (Sample.request 5 [])) true 4)
         {| Initialized := true; CertificateRotationGeneration := 4 |}
         tt Sample.nodes
         (Sample.start
            {| Sample.renderedConfig := Sample.selfSigned; Sample.renderFails := true;
               Sample.badMachines := []; Sample.pauseBroken := false;
               Sample.paused := false; Sample.applied := [] |})).
  destruct (rotateCertificates_composition_failure (X := Sample.externals)
              (Sample.cluster Sample.rke2 (Some (Sample.request 5 [])) true 4)
              {| Initialized := true; CertificateRotationGeneration := 4 |}
              tt Sample.nodes
              (Sample.start
                 {| Sample.renderedConfig := Sample.selfSigned; Sample.renderFails := true;
                    Sample.badMachines := []; Sample.pauseBroken := false;
                    Sample.paused := false; Sample.applied := [] |})
              (snd r) (fst (fst r)) (snd (fst r))
              [EvFindInit (X := Sample.externals) true "https://etcd-0:9345" None] []
              Sample.etcdNode "https://etcd-0:9345" true (errExternal "render failed"))
    as (_ & Herr & Hstatus & _).
  - vm_compute. reflexivity.
  - vm_compute. reflexivity.
  - change (fst r = ({| Initialized := true; CertificateRotationGeneration := 4 |},
                      Some (errExternal "render failed"))).
    destruct r as [[st er] sf]. cbn [fst snd] in *. by subst.
Defined.

(** X15. Plans are dispatched in the order of the collected entries, to
    entries the relevance filter keeps and to no other: the entries
    dispatched to in a pass are an initial segment of the filtered
    list, each of them once per occurrence. *)
Theorem rotateCertificates_dispatch_order `{X : Externals}
    (controlPlane : RKEControlPlane) (status : RKEControlPlaneStatus)
    (tokensSecret : Secret) (clusterPlan : Plan) (s s' : PState)
    (status' : RKEControlPlaneStatus) (err : option error)
    (rotation : RotateCertificates) :
  rotateCertificates controlPlane status tokensSecret clusterPlan s
    = ((status', err), s') ->
  Spec_RotateCertificates (Spec controlPlane) = Some rotation ->
  exists rest,
    List.filter (shouldRotateEntry rotation) (collect clusterPlan anyRole)
    = dispatched (added s s') ++ rest.
Proof.
  intros Hrun Hspec.
  apply rotateCertificates_run in Hrun as (evs & Hevs & Hpass).
  rewrite (added_app _ _ _ Hevs).
  destruct Hpass as [Hdue|found js e0 Hdue|found js Hdue Hnone
                    |rotation' js calls returned Hdue Hrot Hjs Hloop
                    |rotation' js calls e0 Hdue Hrot Hjs Hloop
                    |rotation' js calls Hdue Hrot Hjs Hloop];
    try (eexists; reflexivity);
    rewrite Hspec in Hrot; inversion Hrot; subst rotation'.
  - apply LoopRun_prefix in Hloop as [rest Hrest]. by exists rest.
  - apply LoopRun_end in Hloop as [_ Hdisp]. exists [].
    cbn [dispatched flat_map app]. fold (dispatched (calls ++ [EvPause false (Some e0)])).
    unfold dispatched in *. rewrite flat_map_app, Hdisp. cbn. by rewrite !app_nil_r.
  - apply LoopRun_end in Hloop as [_ Hdisp]. exists [].
    unfold dispatched in *. cbn [flat_map app]. rewrite flat_map_app, Hdisp.
    cbn. by rewrite !app_nil_r.
Qed.

Lemma rotateCertificates_dispatch_order_witness :
  exists rest,
    [Sample.etcdNode; Sample.cpNode; Sample.workerNode]
    = dispatched
        (events (snd (rotateCertificates (X := Sample.externals)
           (Sample.cluster Sample.rke2 (Some (Sample.request 5 [])) true 4)
           {| Initialized := true; CertificateRotationGeneration := 4 |}
           tt Sample.nodes (Sample.start Sample.cpFails))))
      ++ rest.
Proof.
  pose (r := rotateCertificates (X := Sample.externals)
         (Sample.cluster Sample.rke2 (Some (Sample.request 5 [])) true 4)
         {| Initialized := true; CertificateRotationGeneration := 4 |}
         tt Sample.nodes (Sample.start Sample.cpFails)).
  destruct (rotateCertificates_dispatch_order (X := Sample.externals)
              (Sample.cluster Sample.rke2 (Some (Sample.request 5 [])) true 4)
              {| Initialized := true; CertificateRotationGeneration := 4 |}
              tt Sample.nodes (Sample.start Sample.cpFails) (snd r)
              (fst (fst r)) (snd (fst r)) (Sample.request 5 []))
    as [rest Hrest].
  - vm_compute. reflexivity.
  - reflexivity.
  - exists rest. exact Hrest.
Defined.

(** X16. Every call a pass makes after the init node lookup is made for
    an entry the relevance filter keeps.  Base plan generation is asked
    to render with the join server the lookup reported, blanked for a
    worker-only entry; a dispatch carries the message
    [[<machine name>] certificate rotation] and zero waits; and a pause
    call inside the loop is a pause, not a resume. *)
Theorem rotateCertificates_calls `{X : Externals}
    (controlPlane : RKEControlPlane) (status : RKEControlPlaneStatus)
    (tokensSecret : Secret) (clusterPlan : Plan) (s s' : PState)
    (status' : RKEControlPlaneStatus) (err : option error)
    (rotation : RotateCertificates)
    (found : bool) (joinServer : string) (lookupErr : option error)
    (calls : list Event) :
  rotateCertificates controlPlane status tokensSecret clusterPlan s
    = ((status', err), s') ->
  Spec_RotateCertificates (Spec controlPlane) = Some rotation ->
  added s s' = EvFindInit found joinServer lookupErr :: calls ->
  Forall (fun ev =>
            match ev with
            | EvGenerate entry js renderS3 _ =>
                renderS3 = true
                /\ js = (if isOnlyWorker entry then "" else joinServer)
                /\ shouldRotateEntry rotation entry = true
            | EvAssign msg entry _ _ minWait maxWait _ =>
                msg = "[" +:+ machineName entry +:+ "] certificate rotation"
                /\ minWait = 0 /\ maxWait = 0
                /\ shouldRotateEntry rotation entry = true
            | EvPause paused pauseErr =>
                paused = true \/ last calls = Some (EvPause false pauseErr)
            | EvFindInit _ _ _ => False
            end) calls.
Proof.
  intros Hrun Hspec Hadded.
  apply rotateCertificates_run in Hrun as (evs & Hevs & Hpass).
  rewrite (added_app _ _ _ Hevs) in Hadded.
  destruct Hpass as [Hdue|found' js e0 Hdue|found' js Hdue Hnone
                    |rotation' js loop returned Hdue Hrot Hjs Hloop
                    |rotation' js loop e0 Hdue Hrot Hjs Hloop
                    |rotation' js loop Hdue Hrot Hjs Hloop];
    inversion Hadded; subst; try constructor;
    rewrite Hspec in Hrot; inversion Hrot; subst rotation'.
  - apply LoopRun_calls in Hloop.
    eapply Forall_impl; [exact Hloop|].
    intros [] Hev; auto.
  - apply LoopRun_calls in Hloop. apply Forall_app. split.
    + eapply Forall_impl; [exact Hloop|]. intros [] Hev; auto.
    + constructor; [|constructor]. right. by rewrite last_snoc.
  - apply LoopRun_calls in Hloop. apply Forall_app. split.
    + eapply Forall_impl; [exact Hloop|]. intros [] Hev; auto.
    + constructor; [|constructor]. right. by rewrite last_snoc.
Qed.

Lemma rotateCertificates_calls_witness :
  exists calls,
    events (snd (rotateCertificates (X := Sample.externals)
                   (Sample.cluster Sample.rke2 (Some (Sample.request 5 [])) true 4)
                   {| Initialized := true; CertificateRotationGeneration := 4 |}
                   tt Sample.nodes (Sample.start Sample.healthy)))
    = EvFindInit (X := Sample.externals) true "https://etcd-0:9345" None :: calls
    /\ Forall (fun ev =>
                 match ev with
                 | EvGenerate entry js _ _ =>
                     js = (if @isOnlyWorker Sample.externals entry then ""
                           else "https://etcd-0:9345")
                 | _ => True
                 end) calls.
Proof.
  pose (r := rotateCertificates (X := Sample.externals)
         (Sample.cluster Sample.rke2 (Some (Sample.request 5 [])) true 4)
         {| Initialized := true; CertificateRotationGeneration := 4 |}
         tt Sample.nodes (Sample.start Sample.healthy)).
  pose (calls := drop 1 (events (snd r))).
  pose proof (rotateCertificates_calls (X := Sample.externals)
                (Sample.cluster Sample.rke2 (Some (Sample.request 5 [])) true 4)
                {| Initialized := true; CertificateRotationGeneration := 4 |}
                tt Sample.nodes (Sample.start Sample.healthy) (snd r)
                (fst (fst r)) (snd (fst r)) (Sample.request 5 [])
                true "https://etcd-0:9345" None calls) as Hcalls.
  exists calls. split; [vm_compute; reflexivity|].
  eapply Forall_impl.
  - apply Hcalls; vm_compute; reflexivity.
  - intros [] Hev; try exact I. by destruct Hev as (_ & Hjs & _).
Defined.



(** X18. Read by service: [kubelet] and the two server runtimes are
    relevant to every entry that has at least one role; [etcd] only to
    etcd entries; the control-plane services ([controller-manager],
    [scheduler], the runtime controllers, [admin], [cloud-controller])
    only to control-plane entries; [api-server], [kube-proxy] and
    [auth-proxy] to worker and control-plane entries, never to an
    etcd-only one. *)
Theorem relevantServices_by_service `{X : Externals} (entry : planEntry) (service : string) :
  (service ∈ ["kubelet"; "rke2-server"; "k3s-server"] ->
   (service ∈ relevantServices entry
    <-> isWorker entry = true \/ isControlPlane entry = true \/ isEtcd entry = true))
  /\ ("etcd" ∈ relevantServices entry <-> isEtcd entry = true)
  /\ (service ∈ ["controller-manager"; "scheduler"; "rke2-controller"; "k3s-controller";
                 "admin"; "cloud-controller"] ->
      (service ∈ relevantServices entry <-> isControlPlane entry = true))
  /\ (service ∈ ["api-server"; "kube-proxy"; "auth-proxy"] ->
      (service ∈ relevantServices entry
       <-> isWorker entry = true \/ isControlPlane entry = true)).
Proof.
  rewrite !relevantServices_roleImplies.
  unfold roleImplies, workerServices, controlPlaneOnlyServices, etcdServices.
  split; [|split; [|split]].
  - intros Hs. split; [tauto|].
    intros [Hw|[Hc|He]]; [left|right; left|right; right];
      (split; [done|set_solver]).
  - split.
    + intros [[_ Hin]|[[_ [Hin|Hin]]|[He _]]]; [set_solver..|done].
    + intros He. right; right. split; [done|set_solver].
  - intros Hs. split.
    + intros [[_ Hin]|[[Hc _]|[_ Hin]]]; [|done|]; set_solver.
    + intros Hc. right; left. split; [done|]. by right.
  - intros Hs. split.
    + intros [[Hw _]|[[Hc _]|[_ Hin]]]; [by left|by right|set_solver].
    + intros [Hw|Hc]; [left|right; left]; (split; [done|set_solver]).
Qed.

Lemma relevantServices_by_service_witness :
  "kubelet" ∈ relevantServices (X := Sample.externals) Sample.etcdNode.
Proof.
  destruct (relevantServices_by_service (X := Sample.externals) Sample.etcdNode "kubelet")
    as [Hcommon _].
  apply Hcommon.
  - set_solver.
  - right; right. reflexivity.
Defined.

Section EmptyPassFacts.

Context `{X : Externals}.

Lemma LoopRun_nothing_eligible (status : RKEControlPlaneStatus) rotation joinServer
    nodes evs out :
  LoopRun status rotation joinServer nodes evs out ->
  List.filter (shouldRotateEntry rotation) nodes = [] ->
  evs = [] /\ out = None.
Proof.
  induction 1 as [|node nodes evs out Hrel Hrun IH|node nodes e0 Hrel
                 |node nodes np js0 e0 pe Hrel
                 |node nodes np js0 evs out Hrel Hrun IH];
    cbn [List.filter]; rewrite ?Hrel; try done.
Qed.

End EmptyPassFacts.

(** X19. A pass that is due and finds an init node, but for which the
    relevance filter keeps no entry (no node at all, or only names no
    role of any node implies), composes and dispatches nothing: its
    only other call resumes the CAPI cluster, and if that succeeds the
    requested generation is recorded as applied. *)
Theorem rotateCertificates_no_eligible_entry `{X : Externals}
    (controlPlane : RKEControlPlane) (status : RKEControlPlaneStatus)
    (tokensSecret : Secret) (clusterPlan : Plan) (s s' : PState)
    (status' : RKEControlPlaneStatus) (err : option error)
    (rotation : RotateCertificates) (joinServer : string) (calls : list Event) :
  rotateCertificates controlPlane status tokensSecret clusterPlan s
    = ((status', err), s') ->
  Spec_RotateCertificates (Spec controlPlane) = Some rotation ->
  List.filter (shouldRotateEntry rotation) (collect clusterPlan anyRole) = [] ->
  joinServer <> "" ->
  added s s' = EvFindInit true joinServer None :: calls ->
  exists pauseErr,
    calls = [EvPause false pauseErr]
    /\ (pauseErr = None ->
        status' = setCertificateRotationGeneration status (Generation rotation)
        /\ err = Some (errWaiting "certificate rotation done")).
Proof.
  intros Hrun Hspec Hnone Hjoin Hadded.
  apply rotateCertificates_run in Hrun as (evs & Hevs & Hpass).
  rewrite (added_app _ _ _ Hevs) in Hadded.
  remember (status', err) as result eqn:Hres.
  destruct Hpass as [Hdue|found js e0 Hdue|found js Hdue Hblank
                    |rotation' js loop returned Hdue Hrot Hjs Hloop
                    |rotation' js loop e0 Hdue Hrot Hjs Hloop
                    |rotation' js loop Hdue Hrot Hjs Hloop];
    inversion Hadded; subst;
    try (rewrite Hspec in Hrot; inversion Hrot; subst rotation').
  - cbn in Hblank. by apply String.eqb_eq in Hblank.
  - by destruct (LoopRun_nothing_eligible _ _ _ _ _ _ Hloop Hnone).
  - destruct (LoopRun_nothing_eligible _ _ _ _ _ _ Hloop Hnone) as [-> _].
    exists (Some e0). split; [done|discriminate].
  - destruct (LoopRun_nothing_eligible _ _ _ _ _ _ Hloop Hnone) as [-> _].
    exists None. split; [done|]. intros _. by inversion Hres.
Qed.

Lemma rotateCertificates_no_eligible_entry_witness :
  fst (rotateCertificates (X := Sample.externals)
         (Sample.cluster Sample.rke2 (Some (Sample.request 5 ["kube-apiserver"])) true 4)
         {| Initialized := true; CertificateRotationGeneration := 4 |}
         tt Sample.nodes (Sample.start Sample.healthy))
  = ({| Initialized := true; CertificateRotationGeneration := 5 |},
     Some (errWaiting "certificate rotation done")).
Proof.
  pose (r := rotateCertificates (X := Sample.externals)
         (Sample.cluster Sample.rke2 (Some (Sample.request 5 ["kube-apiserver"])) true 4)
         {| Initialized := true; CertificateRotationGeneration := 4 |}
         tt Sample.nodes (Sample.start Sample.healthy)).
  destruct (rotateCertificates_no_eligible_entry (X := Sample.externals)
              (Sample.cluster Sample.rke2 (Some (Sample.request 5 ["kube-apiserver"])) true 4)
              {| Initialized := true; CertificateRotationGeneration := 4 |}
              tt Sample.nodes (Sample.start Sample.healthy) (snd r)
              (fst (fst r)) (snd (fst r))
              (Sample.request 5 ["kube-apiserver"]) "https://etcd-0:9345"
              [EvPause (X := Sample.externals) false None])
    as (pauseErr & Hcalls & Hdone).
  - vm_compute. reflexivity.
  - reflexivity.
  - vm_compute. reflexivity.
  - discriminate.
  - vm_compute. reflexivity.
  - inversion Hcalls as [Hpe]. destruct (Hdone (eq_sym Hpe)) as [Hstatus Herr].
    change (fst r = ({| Initialized := true; CertificateRotationGeneration := 5 |},
                      Some (errWaiting "certificate rotation done"))).
    destruct r as [[st er] sf]. cbn [fst snd] in *. by subst.
Defined.
